(** * The watchdog: an HTTP request bridged to one child-process invocation

    A shallow embedding of [watchdog/main.go]: the request materializer
    [buildFunctionInput], the environment projector [getAdditionalEnvs],
    the process bridge and response composer [pipeRequest], the entry
    point [makeRequestHandler], and the startup code [main].

    Effects are explicit.  Everything the handler does to the outside
    (response writer, pipes, child process, standard output, log) is
    recorded as an [event] in a trace that is threaded through a small
    state monad; a handler run ends by returning, by panicking, or by
    never returning.  Everything the outside decides (the process
    environment, the iteration order of a Go map, the envelope codec, the
    program behind the command line, the clock) is a field of [World]. *)

From Stdlib Require Import ZArith List Lia Ascii String.
From stdpp Require Import base strings list gmap pretty.

Local Open Scope string_scope.
Local Open Scope list_scope.

(** ** Data model *)

Abbreviation bytes := (list Byte.byte).

(** Go's [error] interface value: [nil] or a value with a message. *)
Abbreviation error := (option string).

(** [http.Header]: a Go map from header name to its values. *)
Abbreviation HttpHeader := (gmap string (list string)).

(** Modelled from the spec: the declaration of [WatchdogConfig] (the file
    that declares it is not part of the sources at hand).  The fields are
    the ones [main.go] reads, with the types it uses them at; the field
    [debugHeaders] is written [debugHeadersFlag] here, the function of
    that name keeps it. *)
Record WatchdogConfig := {
  faasProcess : string;
  readTimeout : Z;
  writeTimeout : Z;
  contentType : string;
  marshalRequest : bool;
  cgiHeaders : bool;
  debugHeadersFlag : bool;
  writeDebug : bool;
  suppressLock : bool
}.

(** An [io.ReadCloser] as [ioutil.ReadAll] sees it: the bytes it delivers
    before it stops, and the error it stops with ([None] at a clean EOF). *)
Record ReadCloser := {
  rc_bytes : bytes;
  rc_err : error
}.

Record Url := { RawQuery : string }.

(** The part of [http.Request] the watchdog reads.  [Body] is an
    interface value and may be [nil]. *)
Record Request := {
  Method : string;
  Header : HttpHeader;
  URL : Url;
  Body : option ReadCloser
}.

(** ** The child process and its standard input pipe *)

(** A program as the bridge can observe it: it writes to its combined
    output, reads its standard input, and exits with a status.  A read
    is answered with [Some chunk], or with [None] at end of input. *)
Inductive proc :=
| PExit (code : Z)
| POut (b : bytes) (k : proc)
| PRead (k : option bytes -> proc).

(** The pipe bound to the child's standard input, seen from the child:
    what has been written and not yet read, and whether the parent
    still holds the write end. *)
Record pipe := {
  buffered : bytes;
  write_end_open : bool
}.

Inductive wait_result :=
| Exited (out : bytes) (code : Z)
| Blocked (out : bytes).

(** Running the child to completion.  A read on an empty pipe returns
    end of input only once the write end is closed; while the parent
    holds it open the read blocks, and since [Cmd.Wait] releases the
    write end only after the child has exited, it blocks for good. *)
Fixpoint run_proc (p : proc) (stdin : pipe) (out : bytes) : wait_result :=
  match p with
  | PExit code => Exited out code
  | POut b k => run_proc k stdin (out ++ b)
  | PRead k =>
      match buffered stdin with
      | [] => if write_end_open stdin
              then Blocked out
              else run_proc (k None) stdin out
      | chunk =>
          run_proc (k (Some chunk))
            {| buffered := []; write_end_open := write_end_open stdin |} out
      end
  end.

(** ** The outside world *)

Record World := {
  (** [os.Environ()] *)
  Environ : list string;
  (** the order in which the [n]-th [range] statement of a handler run
      visits a map; Go leaves it unspecified *)
  range_order : nat -> HttpHeader -> list (string * list string);
  (** [types.MarshalRequest], the envelope codec *)
  MarshalRequest : bytes -> HttpHeader -> bytes * error;
  (** what starting [path args] with environment [env] gives: a start
      error, or the program that runs *)
  start_process : string -> list string -> list string -> string + proc;
  (** [time.Since(startTime)] at line 130, in nanoseconds *)
  elapsed : Z;
  (** [fmt.Sprintf("%f", d.Seconds())] for a duration of [d] nanoseconds *)
  Sprintf_f_Seconds : Z -> string
}.

(** Every [range] visits each entry of the map exactly once. *)
Definition range_ok (w : World) : Prop :=
  forall n (h : HttpHeader), range_order w n h ≡ₚ map_to_list h.

(** ** Events and the handler monad *)

(** What a handler run does, in order.  [ECombinedOutput] is the call
    that starts the child; [EJoin] marks the return of [wg.Wait()] at
    line 104 and carries [out] and [err] as the drainer left them;
    [ELogPrintln] carries the command and the error handed to
    [log.Println] at line 108. *)
Inductive event :=
| EPrintf (line : string)
| ELogPrintln (path : string) (args : list string) (err : string)
| EStdoutWrite (b : bytes)
| EBodyReadAll
| EBodyClose
| EMarshalRequest
| EStdinPipe
| EStdinWrite (b : bytes)
| EStdinClose
| ECombinedOutput (path : string) (args : list string) (env : option (list string))
| EJoin (out : bytes) (err : error)
| EHeaderSet (k v : string)
| EWriteHeader (code : Z)
| EWrite (b : bytes).

(** [http.ResponseWriter]: the header map under construction, and what
    has gone out on the wire. *)
Record ResponseWriter := {
  rw_header : HttpHeader;
  rw_sent : option (Z * HttpHeader);
  rw_body : bytes
}.

Record state := {
  st_w : ResponseWriter;
  st_trace : list event
}.

Inductive outcome (A : Type) :=
| Ret (a : A)
| Panic (msg : string)
| Hang.
Arguments Ret {A} a.
Arguments Panic {A} msg.
Arguments Hang {A}.

Definition M (A : Type) : Type := state -> outcome A * state.

Definition ret {A} (a : A) : M A := fun s => (Ret a, s).

Definition bind {A B} (m : M A) (f : A -> M B) : M B :=
  fun s =>
    match m s with
    | (Ret a, s') => f a s'
    | (Panic msg, s') => (Panic msg, s')
    | (Hang, s') => (Hang, s')
    end.

Definition panic {A} (msg : string) : M A := fun s => (Panic msg, s).
Definition hang {A} : M A := fun s => (Hang, s).

Definition emit (e : event) : M unit :=
  fun s => (Ret tt, {| st_w := st_w s; st_trace := st_trace s ++ [e] |}).

Definition lift {A} (o : outcome A) : M A := fun s => (o, s).

Declare Scope go_scope.
Delimit Scope go_scope with go.
Notation "x <- c1 ;; c2" := (bind c1 (fun x => c2))
  (at level 100, c1 at next level, right associativity) : go_scope.
Notation "c1 ;; c2" := (bind c1 (fun _ => c2))
  (at level 100, right associativity) : go_scope.
Local Open Scope go_scope.

(** [for _, x := range l { f x }] *)
Fixpoint for_each {A} (l : list A) (f : A -> M unit) : M unit :=
  match l with
  | [] => ret tt
  | x :: l' => f x ;; for_each l' f
  end.

(** ** The response writer *)

(** [w.Header().Set(k, v)]; both keys the handler sets are already in
    canonical form. *)
Definition Header_Set (k v : string) : M unit :=
  fun s =>
    let w := st_w s in
    (Ret tt,
     {| st_w := {| rw_header := <[k := [v]]> (rw_header w);
                   rw_sent := rw_sent w;
                   rw_body := rw_body w |};
        st_trace := st_trace s ++ [EHeaderSet k v] |}).

(** [w.WriteHeader(code)]: the first call fixes status and headers. *)
Definition WriteHeader (code : Z) : M unit :=
  fun s =>
    let w := st_w s in
    (Ret tt,
     {| st_w := {| rw_header := rw_header w;
                   rw_sent := match rw_sent w with
                              | Some sent => Some sent
                              | None => Some (code, rw_header w)
                              end;
                   rw_body := rw_body w |};
        st_trace := st_trace s ++ [EWriteHeader code] |}).

(** [w.Write(b)]: sends status 200 first if none was sent. *)
Definition Write (b : bytes) : M unit :=
  fun s =>
    let w := st_w s in
    (Ret tt,
     {| st_w := {| rw_header := rw_header w;
                   rw_sent := match rw_sent w with
                              | Some sent => Some sent
                              | None => Some (200%Z, rw_header w)
                              end;
                   rw_body := rw_body w ++ b |};
        st_trace := st_trace s ++ [EWrite b] |}).

(** [h.Get(key)] for a canonical [key]: the first value, or [""]. *)
Definition Header_Get (h : HttpHeader) (key : string) : string :=
  match h !! key with
  | Some (v :: _) => v
  | _ => ""
  end.

(** ** Helpers from the Go library *)

(** [strings.Split(s, " ")]: the pieces between single spaces; [cur] is
    the piece being read. *)
Fixpoint split_at (sep : ascii) (cur s : string) : list string :=
  match s with
  | EmptyString => [cur]
  | String c s' =>
      if Ascii.eqb c sep
      then cur :: split_at sep "" s'
      else split_at sep (cur +:+ String c "") s'
  end.

Definition Split (s : string) : list string := split_at " "%char "" s.

(** [%s] applied to a [[]string]: the values in brackets, separated by
    single spaces. *)
Definition fmt_strings (vv : list string) : string :=
  "[" +:+ String.concat " " vv +:+ "]".

(** [[]byte(s)] *)
Definition bytes_of (s : string) : bytes := list_byte_of_string s.

Definition newline : string := String (ascii_of_nat 10) "".

(** ** [debugHeaders] (lines 41-45) *)

Definition debugHeaders (w : World) (site : nat) (source : HttpHeader)
    (direction : string) : M unit :=
  for_each (range_order w site source)
    (fun kv => emit (EPrintf ("[" +:+ direction +:+ "] " +:+ kv.1 +:+ "="
                                +:+ fmt_strings kv.2 +:+ newline))).

(** ** [getAdditionalEnvs] (lines 142-159) *)

(** The loop of lines 147-150 over the headers in the order [visit];
    [v[0]] panics on a header with no value. *)
Fixpoint header_envs (visit : list (string * list string)) (envs : list string)
    : outcome (list string) :=
  match visit with
  | [] => Ret envs
  | (k, v) :: rest =>
      match v with
      | [] => Panic "index out of range"
      | v0 :: _ => header_envs rest (envs ++ ["Http_" +:+ k +:+ "=" +:+ v0])
      end
  end.

Definition getAdditionalEnvs (w : World) (site : nat) (config : WatchdogConfig)
    (r : Request) (method : string) : outcome (list string) :=
  if cgiHeaders config then
    match header_envs (range_order w site (Header r)) (Environ w) with
    | Ret envs =>
        let envs := envs ++ ["Http_Method=" +:+ method] in
        if (0 <? String.length (RawQuery (URL r)))%nat
        then Ret (envs ++ ["Http_Query=" +:+ RawQuery (URL r)])
        else Ret envs
    | Panic msg => Panic msg
    | Hang => Hang
    end
  else Ret [].

(** ** [buildFunctionInput] (lines 21-39) *)

(** [ioutil.ReadAll(r.Body)]: calling [Read] on a nil interface value is
    a nil dereference, which [ReadAll] does not recover from. *)
Definition ReadAll (body : option ReadCloser) : M (bytes * error) :=
  match body with
  | None => panic "invalid memory address or nil pointer dereference"
  | Some rc => emit EBodyReadAll ;; ret (rc_bytes rc, rc_err rc)
  end.

Definition buildFunctionInput (w : World) (config : WatchdogConfig) (r : Request)
    : M (bytes * error) :=
  (* lines 26-28: the deferred Close is registered only for a non-nil Body
     and runs when the function returns *)
  let deferred : M unit :=
    match Body r with
    | Some _ => emit EBodyClose
    | None => ret tt
    end in
  read <- ReadAll (Body r) ;;
  let requestBytes := read.1 in
  res <- (if marshalRequest config then
            emit EMarshalRequest ;;
            ret (MarshalRequest w requestBytes (Header r))
          else ret (requestBytes, None)) ;;
  deferred ;;
  ret res.

(** ** [pipeRequest] (lines 47-140) *)

(** Lines 59-62: [Cmd.Env] is set only to a non-empty projection, and
    stays nil otherwise. *)
Definition Cmd_Env (envs : list string) : option (list string) :=
  if (0 <? length envs)%nat then Some envs else None.

(** The child's standard input once the goroutines are started.  With
    a body the feeder writes it and closes the pipe (lines 92-96);
    without one nothing is written and the write end made at line 64
    stays open. *)
Definition stdin_of (hasBody : bool) (requestBody : bytes) : pipe :=
  if hasBody
  then {| buffered := requestBody; write_end_open := false |}
  else {| buffered := []; write_end_open := true |}.

(** What [targetCmd.CombinedOutput()] returns, or [None] when it never
    returns.  The child inherits [os.Environ()] when [Cmd.Env] is nil. *)
Definition child_outcome (w : World) (path : string) (args : list string)
    (env : option (list string)) (stdin : pipe) : option (bytes * error) :=
  match start_process w path args (default (Environ w) env) with
  | inl msg => Some ([], Some msg)
  | inr p =>
      match run_proc p stdin [] with
      | Exited out code =>
          if (code =? 0)%Z then Some (out, None)
          else Some (out, Some ("exit status " +:+ pretty code))
      | Blocked _ => None
      end
  end.

Definition CombinedOutput (w : World) (path : string) (args : list string)
    (env : option (list string)) (stdin : pipe) : M (bytes * error) :=
  emit (ECombinedOutput path args env) ;;
  match child_outcome w path args env stdin with
  | Some res => ret res
  | None => hang
  end.

(** Lines 106-139, what follows the join: the response is composed from
    [out] and [err]. *)
Definition respond (w : World) (config : WatchdogConfig) (r : Request)
    (path : string) (args : list string) (res : bytes * error) : M unit :=
  match res.2 with
  | Some err =>
      (if writeDebug config
       then emit (ELogPrintln path args err)
       else ret tt) ;;
      WriteHeader 500 ;;
      Write (bytes_of err)
  | None =>
      let out := res.1 in
      (if writeDebug config then emit (EStdoutWrite out) else ret tt) ;;
      (if (0 <? String.length (contentType config))%nat then
         Header_Set "Content-Type" (contentType config)
       else
         let clientContentType := Header_Get (Header r) "Content-Type" in
         if (0 <? String.length clientContentType)%nat
         then Header_Set "Content-Type" clientContentType
         else ret tt) ;;
      Header_Set "X-Duration-Seconds" (Sprintf_f_Seconds w (elapsed w)) ;;
      WriteHeader 200 ;;
      Write out ;;
      (if debugHeadersFlag config then
         fun s => debugHeaders w 2 (rw_header (st_w s)) "out" s
       else ret tt)
  end.

Definition pipeRequest (w : World) (config : WatchdogConfig) (r : Request)
    (method : string) (hasBody : bool) : M unit :=
  let parts := Split (faasProcess config) in
  (if debugHeadersFlag config then debugHeaders w 0 (Header r) "in" else ret tt) ;;
  match parts with
  | [] => panic "index out of range"
  | path :: args =>
      envs <- lift (getAdditionalEnvs w 1 config r method) ;;
      let env := Cmd_Env envs in
      (* line 64 *)
      emit EStdinPipe ;;
      (* lines 77-85 *)
      built <- (if hasBody then buildFunctionInput w config r
                else ret ([], None)) ;;
      match built.2 with
      | Some buildInputErr =>
          WriteHeader 400 ;;
          Write (bytes_of buildInputErr)
      | None =>
          let requestBody := built.1 in
          (* lines 90-97: the feeder writes the body and closes the pipe *)
          (if hasBody then
             emit (EStdinWrite requestBody) ;; emit EStdinClose
           else ret tt) ;;
          (* lines 99-104: the drainer, then the join *)
          res <- CombinedOutput w path args env (stdin_of hasBody requestBody) ;;
          emit (EJoin res.1 res.2) ;;
          respond w config r path args res
      end
  end.

(** ** [makeRequestHandler] (lines 161-180) *)

Definition makeRequestHandler (w : World) (config : WatchdogConfig) (r : Request)
    : M unit :=
  if decide (Method r = "POST" \/ Method r = "PUT" \/
             Method r = "DELETE" \/ Method r = "UPDATE")
  then pipeRequest w config r (Method r) true
  else if decide (Method r = "GET")
  then pipeRequest w config r (Method r) false
  else WriteHeader 405.

(** A handler run starts with a fresh response writer. *)
Definition init : state :=
  {| st_w := {| rw_header := ∅; rw_sent := None; rw_body := [] |};
     st_trace := [] |}.

Definition serve (w : World) (config : WatchdogConfig) (r : Request)
    : outcome unit * state :=
  makeRequestHandler w config r init.

(** ** Observing a run *)

(** The status line and the headers that went out, if any did. *)
Definition sent_status (s : state) : option Z := fst <$> rw_sent (st_w s).

Definition sent_header (s : state) (k : string) : option (list string) :=
  match rw_sent (st_w s) with
  | Some (_, h) => h !! k
  | None => None
  end.

Definition sent_body (s : state) : bytes := rw_body (st_w s).

(** Events that compose the HTTP response. *)
Definition is_response_event (e : event) : bool :=
  match e with
  | EHeaderSet _ _ | EWriteHeader _ | EWrite _ => true
  | _ => false
  end.

(** The descriptors a run holds: the request body, and the two ends of
    the pipe made by [StdinPipe]. *)
Record resources := {
  body_open : bool;
  stdin_read_open : bool;
  stdin_write_open : bool
}.

(** [StdinPipe] opens both ends.  [Close] on the writer releases the
    write end.  [CombinedOutput] releases the server's copy of the read
    end when it starts the child, and whatever is left of the pipe once
    the child has been waited for, so nothing of it is open when the
    join is passed. *)
Definition track (res : resources) (e : event) : resources :=
  match e with
  | EBodyClose =>
      {| body_open := false;
         stdin_read_open := stdin_read_open res;
         stdin_write_open := stdin_write_open res |}
  | EStdinPipe =>
      {| body_open := body_open res;
         stdin_read_open := true;
         stdin_write_open := true |}
  | EStdinClose =>
      {| body_open := body_open res;
         stdin_read_open := stdin_read_open res;
         stdin_write_open := false |}
  | ECombinedOutput _ _ _ =>
      {| body_open := body_open res;
         stdin_read_open := false;
         stdin_write_open := stdin_write_open res |}
  | EJoin _ _ =>
      {| body_open := body_open res;
         stdin_read_open := false;
         stdin_write_open := false |}
  | _ => res
  end.

(** What is still open after a run on request [r]. *)
Definition open_after (r : Request) (trace : list event) : resources :=
  fold_left track trace
    {| body_open := bool_decide (is_Some (Body r));
       stdin_read_open := false;
       stdin_write_open := false |}.

(** The environment entry of one visited header, line 148. *)
Definition header_entry (kv : string * list string) : string :=
  "Http_" +:+ kv.1 +:+ "=" +:+ hd "" kv.2.

(** The entries the projector appends after the headers. *)
Definition method_and_query (r : Request) (method : string) : list string :=
  ["Http_Method=" +:+ method] ++
  (if decide (RawQuery (URL r) = "") then []
   else ["Http_Query=" +:+ RawQuery (URL r)]).

(** The lines [debugHeaders] prints. *)
Definition debug_events (w : World) (site : nat) (source : HttpHeader)
    (direction : string) : list event :=
  (fun kv => EPrintf ("[" +:+ direction +:+ "] " +:+ kv.1 +:+ "="
                        +:+ fmt_strings kv.2 +:+ newline))
    <$> range_order w site source.

(** Every header of the map has at least one value, as every header
    the HTTP server parses has. *)
Definition has_value (h : HttpHeader) : Prop :=
  map_Forall (fun _ v => v <> []) h.

(** ** The events of a run, by stage *)

(** The result of lines 77-85 as a value: what the materializer hands
    back when there is a body to read, [None] when it panics. *)
Definition input_of (w : World) (config : WatchdogConfig) (r : Request)
    (hasBody : bool) : option (bytes * error) :=
  if hasBody then
    match Body r with
    | Some rc =>
        Some (if marshalRequest config
              then MarshalRequest w (rc_bytes rc) (Header r)
              else (rc_bytes rc, None))
    | None => None
    end
  else Some ([], None).

Definition events_in (w : World) (config : WatchdogConfig) (r : Request)
    : list event :=
  if debugHeadersFlag config then debug_events w 0 (Header r) "in" else [].

Definition events_build (config : WatchdogConfig) (hasBody : bool) : list event :=
  if hasBody
  then [EBodyReadAll] ++ (if marshalRequest config then [EMarshalRequest] else [])
         ++ [EBodyClose]
  else [].

Definition events_feed (hasBody : bool) (requestBody : bytes) : list event :=
  if hasBody then [EStdinWrite requestBody; EStdinClose] else [].

Definition events_to_build (w : World) (config : WatchdogConfig) (r : Request)
    (hasBody : bool) : list event :=
  events_in w config r ++ [EStdinPipe] ++ events_build config hasBody.

Definition events_to_join (w : World) (config : WatchdogConfig) (r : Request)
    (path : string) (args envs : list string) (hasBody : bool)
    (requestBody : bytes) : list event :=
  events_to_build w config r hasBody ++ events_feed hasBody requestBody
    ++ [ECombinedOutput path args (Cmd_Env envs)].

Definition events_500 (config : WatchdogConfig) (path : string)
    (args : list string) (err : string) : list event :=
  (if writeDebug config then [ELogPrintln path args err] else [])
    ++ [EWriteHeader 500; EWrite (bytes_of err)].

(** Lines 119-128: the content type of a successful response, if any. *)
Definition content_type_of (config : WatchdogConfig) (r : Request) : option string :=
  if (0 <? String.length (contentType config))%nat then Some (contentType config)
  else if (0 <? String.length (Header_Get (Header r) "Content-Type"))%nat
       then Some (Header_Get (Header r) "Content-Type")
       else None.

Definition headers_200 (w : World) (config : WatchdogConfig) (r : Request)
    : HttpHeader :=
  <["X-Duration-Seconds" := [Sprintf_f_Seconds w (elapsed w)]]>
    (match content_type_of config r with
     | Some ct => <["Content-Type" := [ct]]> ∅
     | None => ∅
     end).

Definition events_composed (w : World) (config : WatchdogConfig) (r : Request)
    (out : bytes) : list event :=
  (match content_type_of config r with
   | Some ct => [EHeaderSet "Content-Type" ct]
   | None => []
   end)
    ++ [EHeaderSet "X-Duration-Seconds" (Sprintf_f_Seconds w (elapsed w));
        EWriteHeader 200; EWrite out]
    ++ (if debugHeadersFlag config
        then debug_events w 2 (headers_200 w config r) "out" else []).

Definition events_200 (w : World) (config : WatchdogConfig) (r : Request)
    (out : bytes) : list event :=
  (if writeDebug config then [EStdoutWrite out] else [])
    ++ events_composed w config r out.

(** A response with no header of its own. *)
Definition bare_response (code : Z) (body : bytes) : ResponseWriter :=
  {| rw_header := ∅; rw_sent := Some (code, ∅); rw_body := body |}.

(** A writer nothing has been written to yet. *)
Definition fresh (s : state) : Prop := st_w s = st_w init.

(** The switch of [makeRequestHandler] as a relation between the method
    and the has-body flag it passes on. *)
Definition method_has_body (method : string) (hasBody : bool) : Prop :=
  (hasBody = true /\ method ∈ ["POST"; "PUT"; "DELETE"; "UPDATE"]) \/
  (hasBody = false /\ method = "GET").

(** ** Sample programs, worlds and requests *)

(** Copies standard input to standard output until end of input, like
    [cat]; [n] bounds the number of chunks. *)
Fixpoint cat (n : nat) : proc :=
  match n with
  | O => PExit 0
  | S n' => PRead (fun chunk => match chunk with
                                | None => PExit 0
                                | Some b => POut b (cat n')
                                end)
  end.

(** Writes "boom" and exits with status 1. *)
Definition boom : proc := POut (bytes_of "boom") (PExit 1).

(** Writes a line without reading anything. *)
Definition hello : proc := POut (bytes_of "hello") (PExit 0).

(** [s] padded with zeros on the left up to [width] characters. *)
Fixpoint pad_left (fuel width : nat) (s : string) : string :=
  match fuel with
  | O => s
  | S fuel' => if (String.length s <? width)%nat
               then pad_left fuel' width ("0" +:+ s)
               else s
  end.

(** Seconds with six decimals, from nanoseconds rounded down to the
    microsecond. *)
Definition fixed6 (d : Z) : string :=
  pretty (d `div` 1000000000)%Z +:+ "." +:+
  pad_left 6 6 (pretty ((d `mod` 1000000000) `div` 1000)%Z).

Definition sample_start (path : string) (args env : list string) : string + proc :=
  if decide (path = "cat") then inr (cat 4)
  else if decide (path = "boom") then inr boom
  else if decide (path = "hello") then inr hello
  else inl ("exec: " +:+ path +:+ ": executable file not found in $PATH").

(** A codec that rejects every request. *)
Definition failing_codec (b : bytes) (h : HttpHeader) : bytes * error :=
  ([], Some "json: unsupported value").

Definition sample_world (visit : list (string * list string) -> list (string * list string))
    (codec : bytes -> HttpHeader -> bytes * error) : World :=
  {| Environ := ["PATH=/bin"];
     range_order := fun _ h => visit (map_to_list h);
     MarshalRequest := codec;
     start_process := sample_start;
     elapsed := 1500000;
     Sprintf_f_Seconds := fixed6 |}.

Definition world_a : World := sample_world id (fun b _ => (b, None)).
Definition world_b : World := sample_world reverse (fun b _ => (b, None)).
Definition world_c : World := sample_world id failing_codec.

Definition sample_config (process : string) (marshal cgi debug : bool)
    : WatchdogConfig :=
  {| faasProcess := process; readTimeout := 5; writeTimeout := 5;
     contentType := ""; marshalRequest := marshal; cgiHeaders := cgi;
     debugHeadersFlag := debug; writeDebug := debug; suppressLock := false |}.

Definition sample_header : HttpHeader :=
  {[ "Accept" := ["text/html"; "text/plain"]; "Content-Type" := ["text/plain"] ]}.

Definition sample_request (method query : string) (body : option ReadCloser)
    : Request :=
  {| Method := method; Header := sample_header;
     URL := {| RawQuery := query |}; Body := body |}.

Definition body_of (s : string) (err : error) : option ReadCloser :=
  Some {| rc_bytes := bytes_of s; rc_err := err |}.

(** ** The runs of the handler *)

(** Every way a handler run can end, with the state it ends in. *)
Inductive run (w : World) (config : WatchdogConfig) (r : Request)
    : outcome unit -> state -> Prop :=
| run_405 :
    Method r ∉ ["POST"; "PUT"; "DELETE"; "UPDATE"; "GET"] ->
    run w config r (Ret tt)
      {| st_w := bare_response 405 []; st_trace := [EWriteHeader 405] |}
| run_envs_panic hasBody msg :
    method_has_body (Method r) hasBody ->
    getAdditionalEnvs w 1 config r (Method r) = Panic msg ->
    run w config r (Panic msg)
      {| st_w := st_w init; st_trace := events_in w config r |}
| run_nil_body hasBody envs :
    method_has_body (Method r) hasBody ->
    getAdditionalEnvs w 1 config r (Method r) = Ret envs ->
    input_of w config r hasBody = None ->
    run w config r (Panic "invalid memory address or nil pointer dereference")
      {| st_w := st_w init; st_trace := events_in w config r ++ [EStdinPipe] |}
| run_400 hasBody envs body msg :
    method_has_body (Method r) hasBody ->
    getAdditionalEnvs w 1 config r (Method r) = Ret envs ->
    input_of w config r hasBody = Some (body, Some msg) ->
    run w config r (Ret tt)
      {| st_w := bare_response 400 (bytes_of msg);
         st_trace := events_to_build w config r hasBody
                       ++ [EWriteHeader 400; EWrite (bytes_of msg)] |}
| run_hang hasBody path args envs body :
    method_has_body (Method r) hasBody ->
    Split (faasProcess config) = path :: args ->
    getAdditionalEnvs w 1 config r (Method r) = Ret envs ->
    input_of w config r hasBody = Some (body, None) ->
    child_outcome w path args (Cmd_Env envs) (stdin_of hasBody body) = None ->
    run w config r Hang
      {| st_w := st_w init;
         st_trace := events_to_join w config r path args envs hasBody body |}
| run_500 hasBody path args envs body out err :
    method_has_body (Method r) hasBody ->
    Split (faasProcess config) = path :: args ->
    getAdditionalEnvs w 1 config r (Method r) = Ret envs ->
    input_of w config r hasBody = Some (body, None) ->
    child_outcome w path args (Cmd_Env envs) (stdin_of hasBody body)
      = Some (out, Some err) ->
    run w config r (Ret tt)
      {| st_w := bare_response 500 (bytes_of err);
         st_trace := events_to_join w config r path args envs hasBody body
                       ++ [EJoin out (Some err)]
                       ++ events_500 config path args err |}
| run_200 hasBody path args envs body out :
    method_has_body (Method r) hasBody ->
    Split (faasProcess config) = path :: args ->
    getAdditionalEnvs w 1 config r (Method r) = Ret envs ->
    input_of w config r hasBody = Some (body, None) ->
    child_outcome w path args (Cmd_Env envs) (stdin_of hasBody body)
      = Some (out, None) ->
    run w config r (Ret tt)
      {| st_w := {| rw_header := headers_200 w config r;
                    rw_sent := Some (200%Z, headers_200 w config r);
                    rw_body := out |};
         st_trace := events_to_join w config r path args envs hasBody body
                       ++ [EJoin out None]
                       ++ events_200 w config r out |}.

(** ** Counting events *)

Fixpoint count_events (p : event -> bool) (l : list event) : nat :=
  match l with
  | [] => 0
  | e :: l' => (if p e then 1 else 0) + count_events p l'
  end.

Definition is_spawn (e : event) : bool :=
  match e with
  | ECombinedOutput _ _ _ => true
  | _ => false
  end.

Definition is_stdin_pipe (e : event) : bool :=
  match e with
  | EStdinPipe => true
  | _ => false
  end.

Definition is_write_header (e : event) : bool :=
  match e with
  | EWriteHeader _ => true
  | _ => false
  end.

(** Events that reach the server's own standard output or its log. *)
Definition is_diagnostic (e : event) : bool :=
  match e with
  | EPrintf _ | ELogPrintln _ _ _ | EStdoutWrite _ => true
  | _ => false
  end.


Fixpoint has_space (s : string) : bool :=
  match s with
  | EmptyString => false
  | String c s' => Ascii.eqb c " " || has_space s'
  end.

(** The line [debugHeaders] prints for one header. *)
Definition debug_line (direction : string) (kv : string * list string) : string :=
  "[" +:+ direction +:+ "] " +:+ kv.1 +:+ "=" +:+ fmt_strings kv.2 +:+ newline.

(** ** [main] (lines 182-213) *)

(** [http.Server], the fields [main] sets. *)
Record Server := {
  Addr : string;
  ReadTimeout : Z;
  WriteTimeout : Z;
  MaxHeaderBytes : Z
}.

(** What [main] does to the outside, in order.  [SHandleFunc] carries
    the configuration the registered handler is made from. *)
Inductive startup_event :=
| SPanicln (msg : string)
| SHandleFunc (pattern : string) (config : WatchdogConfig)
| SPrintf (line : string)
| SWriteFile (path : string) (data : bytes) (perm : Z)
| SPanicf (line : string)
| SListenAndServe (srv : Server)
| SFatal (err : string).

(** How [main] ends: with a panic, with [os.Exit] from [log.Fatal], or
    not at all while the server keeps serving. *)
Inductive startup_end :=
| StartupPanic
| StartupExit (code : Z)
| Serving.

(** What the outside decides at startup. *)
Record Host := {
  (** [readConfig.Read(osEnv)] *)
  Read : WatchdogConfig;
  (** [ioutil.WriteFile] *)
  WriteFile : string -> bytes -> Z -> error;
  (** the error [ListenAndServe] returns with, [None] while it serves *)
  ListenAndServe : Server -> option string
}.

(** An [int64] product: the exact result, wrapped. *)
Definition wrap64 (z : Z) : Z :=
  ((z + 2 ^ 63) `mod` 2 ^ 64 - 2 ^ 63)%Z.

(** [time.Second], in nanoseconds. *)
Definition Second : Z := 1000000000.

Definition lock_path : string := "/tmp/.lock".

Definition main (h : Host) : list startup_event * startup_end :=
  let config := Read h in
  if (String.length (faasProcess config) =? 0)%nat then
    ([SPanicln "Provide a valid process via fprocess environmental variable."],
     StartupPanic)
  else
    let s := {| Addr := ":8080";
                ReadTimeout := wrap64 (readTimeout config * Second);
                WriteTimeout := wrap64 (writeTimeout config * Second);
                MaxHeaderBytes := Z.shiftl 1 20 |} in
    let listen :=
      match ListenAndServe h s with
      | Some err => ([SListenAndServe s; SFatal err], StartupExit 1)
      | None => ([SListenAndServe s], Serving)
      end in
    if suppressLock config then
      ([SHandleFunc "/" config] ++ listen.1, listen.2)
    else
      let written :=
        [SHandleFunc "/" config;
         SPrintf ("Writing lock-file to: " +:+ lock_path +:+ newline);
         (* mode 0660 *)
         SWriteFile lock_path [] 432] in
      match WriteFile h lock_path [] 432 with
      | Some writeErr =>
          (written ++
             [SPanicf ("Cannot write " +:+ lock_path
                         +:+ ". To disable lock-file set env suppress_lock=true."
                         +:+ newline +:+ " Error: " +:+ writeErr +:+ "."
                         +:+ newline)],
           StartupPanic)
      | None => (written ++ listen.1, listen.2)
      end.

Definition is_listen (e : startup_event) : bool :=
  match e with
  | SListenAndServe _ => true
  | _ => false
  end.

Definition is_write_file (e : startup_event) : bool :=
  match e with
  | SWriteFile _ _ _ => true
  | _ => false
  end.

(** A host on which everything at startup succeeds and the server
    keeps serving. *)
Definition sample_host (config : WatchdogConfig) (writeErr : error) : Host :=
  {| Read := config;
     WriteFile := fun _ _ _ => writeErr;
     ListenAndServe := fun _ => None |}.

(** The samples used most. *)
Definition cfg (process : string) : WatchdogConfig :=
  sample_config process false false false.

Definition get_plain : Request := sample_request "GET" "" None.

Definition post_x : Request := sample_request "POST" "" (body_of "x" None).

(** A request with a header that has no value. *)
Definition get_valueless : Request :=
  {| Method := "GET"; Header := {[ "X-Empty" := [] ]};
     URL := {| RawQuery := "" |}; Body := None |}.

(** ** Basic facts *)

Lemma split_at_nonempty sep s cur : split_at sep cur s <> [].
Proof.
  revert cur. induction s as [|c s IH]; intros cur; simpl.
  - discriminate.
  - destruct (Ascii.eqb c sep); [discriminate | apply IH].
Qed.

Lemma Split_cons s : exists path args, Split s = path :: args.
Proof.
  unfold Split. destruct (split_at " " "" s) as [|path args] eqn:E.
  - exfalso. exact (split_at_nonempty _ _ _ E).
  - eauto.
Qed.

Lemma for_each_emit {A} (f : A -> event) (l : list A) (s : state) :
  for_each l (fun x => emit (f x)) s =
  (Ret tt, {| st_w := st_w s; st_trace := st_trace s ++ (f <$> l) |}).
Proof.
  revert s. induction l as [|x l IH]; intros s; simpl.
  - unfold ret. rewrite app_nil_r. by destruct s.
  - unfold bind, emit at 1. rewrite IH. simpl.
    by rewrite <- app_assoc.
Qed.

Lemma debugHeaders_run w site source direction s :
  debugHeaders w site source direction s =
  (Ret tt, {| st_w := st_w s;
              st_trace := st_trace s ++ debug_events w site source direction |}).
Proof. unfold debugHeaders, debug_events. apply for_each_emit. Qed.

(** The header loop when every visited header has a value. *)
Lemma header_envs_ok visit envs :
  Forall (fun kv => kv.2 <> []) visit ->
  header_envs visit envs = Ret (envs ++ (header_entry <$> visit)).
Proof.
  intros Hall. revert envs.
  induction Hall as [|[k v] visit Hv _ IH]; intros envs; simpl.
  - by rewrite app_nil_r.
  - destruct v as [|v0 v]; [done|].
    rewrite IH. by rewrite <- app_assoc.
Qed.

(** The header loop when some visited header has none. *)
Lemma header_envs_panic visit envs :
  Exists (fun kv => kv.2 = []) visit ->
  header_envs visit envs = Panic "index out of range".
Proof.
  revert envs. induction visit as [|[k v] visit IH]; intros envs Hex; simpl.
  - by apply Exists_nil in Hex.
  - destruct v as [|v0 v]; [done|].
    apply Exists_cons in Hex as [Hex|Hex]; [done|]. by apply IH.
Qed.

Lemma has_value_visit (h : HttpHeader) visit :
  visit ≡ₚ map_to_list h -> has_value h ->
  Forall (fun kv => kv.2 <> []) visit.
Proof.
  intros Hperm Hval. apply Forall_forall. intros [k v] Hin. simpl.
  rewrite Hperm in Hin. apply elem_of_map_to_list in Hin.
  exact (Hval k v Hin).
Qed.

Lemma no_value_visit (h : HttpHeader) visit :
  visit ≡ₚ map_to_list h -> ~ has_value h ->
  Exists (fun kv => kv.2 = []) visit.
Proof.
  intros Hperm Hval.
  destruct (decide (Exists (fun kv : string * list string => kv.2 = []) visit))
    as [|Hno]; [done|].
  exfalso. apply Hval. intros k v Hk ->. apply Hno.
  apply Exists_exists. exists (k, []). split; [|done].
  rewrite Hperm. by apply elem_of_map_to_list.
Qed.

Lemma length_pos_nonempty (q : string) :
  (0 <? String.length q)%nat = negb (bool_decide (q = "")).
Proof. by destruct q. Qed.

Lemma getAdditionalEnvs_enabled w site config r method :
  cgiHeaders config = true ->
  Forall (fun kv => kv.2 <> []) (range_order w site (Header r)) ->
  getAdditionalEnvs w site config r method =
  Ret (Environ w ++ (header_entry <$> range_order w site (Header r))
         ++ method_and_query r method).
Proof.
  intros Hcgi Hall. unfold getAdditionalEnvs, method_and_query.
  rewrite Hcgi, (header_envs_ok _ _ Hall), length_pos_nonempty.
  case_decide as Hq.
  - rewrite bool_decide_eq_true_2 by done. simpl.
    by rewrite <- app_assoc.
  - rewrite bool_decide_eq_false_2 by done. simpl.
    by rewrite <- !app_assoc.
Qed.

(** ** The environment projector *)

(** C7: with cgi-headers disabled the projector returns the empty
    sequence; with it enabled it returns the process environment, then one
    entry [Http_<name>=<first value>] for each header of the request
    (each header visited once, whatever the number of its values), then
    [Http_Method=<method>], then [Http_Query=<raw query>] exactly when the
    raw query is not empty. *)
Theorem getAdditionalEnvs_contract w site config r method :
  range_ok w -> has_value (Header r) ->
  (cgiHeaders config = false ->
     getAdditionalEnvs w site config r method = Ret []) /\
  (cgiHeaders config = true ->
     exists visit,
       visit ≡ₚ map_to_list (Header r) /\
       getAdditionalEnvs w site config r method =
         Ret (Environ w ++ (header_entry <$> visit)
                ++ ["Http_Method=" +:+ method]
                ++ (if decide (RawQuery (URL r) = "") then []
                    else ["Http_Query=" +:+ RawQuery (URL r)]))) /\
  (forall k v0 rest,
     header_entry (k, v0 :: rest) = "Http_" +:+ k +:+ "=" +:+ v0).
Proof.
  intros Hrange Hval. split; [|split].
  - intros Hcgi. unfold getAdditionalEnvs. by rewrite Hcgi.
  - intros Hcgi. exists (range_order w site (Header r)). split; [apply Hrange|].
    apply getAdditionalEnvs_enabled; [done|].
    by apply (has_value_visit (Header r)).
  - reflexivity.
Qed.

Lemma getAdditionalEnvs_contract_witness :
  range_ok world_a /\ has_value (Header (sample_request "GET" "a=1" None)) /\
  exists visit,
    visit ≡ₚ map_to_list sample_header /\
    getAdditionalEnvs world_a 1 (sample_config "cat" false true false)
      (sample_request "GET" "a=1" None) "GET" =
    Ret (["PATH=/bin"] ++ (header_entry <$> visit)
           ++ ["Http_Method=GET"] ++ ["Http_Query=a=1"]).
Proof.
  assert (Hr : range_ok world_a) by (intros n h; reflexivity).
  assert (Hv : has_value (Header (sample_request "GET" "a=1" None)))
    by (apply (bool_decide_unpack _); vm_compute; exact I).
  split; [exact Hr|]. split; [exact Hv|].
  destruct (getAdditionalEnvs_contract world_a 1
              (sample_config "cat" false true false)
              (sample_request "GET" "a=1" None) "GET" Hr Hv) as (_ & H & _).
  exact (H eq_refl).
Defined.

(** C4, as stated: two runs of the projector on the same request and
    method give the same sequence.  It fails: the headers live in a Go
    map, and two [range] loops over the same map may visit it in
    different orders. *)
Lemma getAdditionalEnvs_order_differs :
  range_ok world_a /\ range_ok world_b /\
  Environ world_a = Environ world_b /\
  cgiHeaders (sample_config "cat" false true false) = true /\
  getAdditionalEnvs world_a 1 (sample_config "cat" false true false)
    (sample_request "GET" "" None) "GET" <>
  getAdditionalEnvs world_b 1 (sample_config "cat" false true false)
    (sample_request "GET" "" None) "GET".
Proof.
  split; [intros n h; reflexivity|].
  split; [intros n h; apply reverse_Permutation|].
  split; [reflexivity|]. split; [reflexivity|].
  vm_compute. discriminate.
Qed.

(** C4, amended: two runs on the same request and method either both
    panic, or produce the process environment, then the header entries
    in two orders that are permutations of each other, then the same
    [Http_Method] and [Http_Query] entries; the two sequences are equal
    when both runs visit the headers in the same order. *)
Theorem getAdditionalEnvs_deterministic_up_to_order
    w1 w2 site1 site2 config r method :
  range_ok w1 -> range_ok w2 -> Environ w1 = Environ w2 ->
  cgiHeaders config = true ->
  ((exists hs1 hs2,
      getAdditionalEnvs w1 site1 config r method =
        Ret (Environ w1 ++ hs1 ++ method_and_query r method) /\
      getAdditionalEnvs w2 site2 config r method =
        Ret (Environ w1 ++ hs2 ++ method_and_query r method) /\
      hs1 ≡ₚ hs2) \/
   (getAdditionalEnvs w1 site1 config r method = Panic "index out of range" /\
    getAdditionalEnvs w2 site2 config r method = Panic "index out of range")) /\
  (range_order w1 site1 (Header r) = range_order w2 site2 (Header r) ->
   getAdditionalEnvs w1 site1 config r method =
   getAdditionalEnvs w2 site2 config r method).
Proof.
  intros H1 H2 Henv Hcgi. split.
  - destruct (decide (has_value (Header r))) as [Hval|Hval].
    + left. eexists _, _. split; [|split].
      * apply getAdditionalEnvs_enabled; [done|].
        by apply (has_value_visit (Header r)).
      * rewrite Henv. apply getAdditionalEnvs_enabled; [done|].
        by apply (has_value_visit (Header r)).
      * apply fmap_Permutation. by rewrite (H1 site1), (H2 site2).
    + right. unfold getAdditionalEnvs. rewrite Hcgi.
      rewrite !header_envs_panic; [done| |];
        by apply (no_value_visit (Header r)).
  - intros Heq. unfold getAdditionalEnvs. by rewrite Heq, Henv.
Qed.

Lemma getAdditionalEnvs_deterministic_up_to_order_witness :
  range_ok world_a /\ range_ok world_b /\
  Environ world_a = Environ world_b /\
  cgiHeaders (sample_config "cat" false true false) = true /\
  ((exists hs1 hs2,
      getAdditionalEnvs world_a 1 (sample_config "cat" false true false)
        (sample_request "GET" "" None) "GET" =
        Ret (Environ world_a ++ hs1
               ++ method_and_query (sample_request "GET" "" None) "GET") /\
      getAdditionalEnvs world_b 1 (sample_config "cat" false true false)
        (sample_request "GET" "" None) "GET" =
        Ret (Environ world_a ++ hs2
               ++ method_and_query (sample_request "GET" "" None) "GET") /\
      hs1 ≡ₚ hs2) \/
   (getAdditionalEnvs world_a 1 (sample_config "cat" false true false)
      (sample_request "GET" "" None) "GET" = Panic "index out of range" /\
    getAdditionalEnvs world_b 1 (sample_config "cat" false true false)
      (sample_request "GET" "" None) "GET" = Panic "index out of range")).
Proof.
  assert (Ha : range_ok world_a) by (intros n h; reflexivity).
  assert (Hb : range_ok world_b) by (intros n h; apply reverse_Permutation).
  split; [exact Ha|]. split; [exact Hb|].
  split; [reflexivity|]. split; [reflexivity|].
  exact (proj1 (getAdditionalEnvs_deterministic_up_to_order
                  world_a world_b 1 1 (sample_config "cat" false true false)
                  (sample_request "GET" "" None) "GET"
                  Ha Hb eq_refl eq_refl)).
Defined.

(** ** The request materializer *)

Lemma buildFunctionInput_body w config r rc s :
  Body r = Some rc ->
  buildFunctionInput w config r s =
    (Ret (if marshalRequest config
          then MarshalRequest w (rc_bytes rc) (Header r)
          else (rc_bytes rc, None)),
     {| st_w := st_w s;
        st_trace := st_trace s ++ [EBodyReadAll]
                      ++ (if marshalRequest config then [EMarshalRequest] else [])
                      ++ [EBodyClose] |}).
Proof.
  intros Hb. unfold buildFunctionInput. rewrite Hb.
  destruct (marshalRequest config); cbn; by rewrite <- ?app_assoc.
Qed.

Lemma buildFunctionInput_nil w config r s :
  Body r = None ->
  buildFunctionInput w config r s =
    (Panic "invalid memory address or nil pointer dereference", s).
Proof. intros Hb. unfold buildFunctionInput. by rewrite Hb. Qed.

(** C9: an error met while reading the body is dropped, and the
    materializer goes on with the bytes that were read: the result does
    not depend on the reader's error.  With marshal-request disabled the
    materializer returns no error at all. *)
Theorem buildFunctionInput_discards_read_error w config r s :
  (forall rc, Body r = Some rc ->
     buildFunctionInput w config r s =
       (Ret (if marshalRequest config
             then MarshalRequest w (rc_bytes rc) (Header r)
             else (rc_bytes rc, None)),
        {| st_w := st_w s;
           st_trace := st_trace s ++ [EBodyReadAll]
                         ++ (if marshalRequest config then [EMarshalRequest] else [])
                         ++ [EBodyClose] |})) /\
  (marshalRequest config = false ->
     forall res e s', buildFunctionInput w config r s <> (Ret (res, Some e), s')).
Proof.
  split.
  - intros rc Hb. by apply buildFunctionInput_body.
  - intros Hm res e s'. destruct (Body r) as [rc|] eqn:Hb.
    + rewrite (buildFunctionInput_body _ _ _ rc) by done. rewrite Hm.
      intros [=].
    + rewrite buildFunctionInput_nil by done. intros [=].
Qed.

Lemma buildFunctionInput_discards_read_error_witness :
  (Body (sample_request "POST" "" (body_of "partial" (Some "unexpected EOF")))
     = body_of "partial" (Some "unexpected EOF") /\
   buildFunctionInput world_a (sample_config "cat" false false false)
     (sample_request "POST" "" (body_of "partial" (Some "unexpected EOF"))) init =
   (Ret (bytes_of "partial", None),
    {| st_w := st_w init; st_trace := [EBodyReadAll; EBodyClose] |})) /\
  (marshalRequest (sample_config "cat" false false false) = false /\
   buildFunctionInput world_a (sample_config "cat" false false false)
     (sample_request "POST" "" (body_of "partial" (Some "unexpected EOF"))) init <>
   (Ret (bytes_of "partial", Some "unexpected EOF"), init)).
Proof.
  split; (split; [reflexivity|]).
  - exact (proj1 (buildFunctionInput_discards_read_error world_a
                    (sample_config "cat" false false false)
                    (sample_request "POST" ""
                       (body_of "partial" (Some "unexpected EOF"))) init)
             _ eq_refl).
  - exact (proj2 (buildFunctionInput_discards_read_error world_a
                    (sample_config "cat" false false false)
                    (sample_request "POST" ""
                       (body_of "partial" (Some "unexpected EOF"))) init)
             eq_refl _ _ _).
Defined.

(** C3, on the code: an empty body gives the empty byte sequence and no
    error when marshal-request is disabled, but a request whose body is
    nil makes [ioutil.ReadAll] dereference a nil reader, and the
    materializer panics instead of returning empty bytes. *)
Theorem buildFunctionInput_nil_body_panics w config r s :
  (Body r = Some {| rc_bytes := []; rc_err := None |} ->
   marshalRequest config = false ->
   buildFunctionInput w config r s =
     (Ret ([], None),
      {| st_w := st_w s; st_trace := st_trace s ++ [EBodyReadAll; EBodyClose] |})) /\
  (Body r = None ->
   buildFunctionInput w config r s =
     (Panic "invalid memory address or nil pointer dereference", s)).
Proof.
  split.
  - intros Hb Hm. rewrite (buildFunctionInput_body _ _ _ _ _ Hb). by rewrite Hm.
  - apply buildFunctionInput_nil.
Qed.

Lemma buildFunctionInput_nil_body_panics_witness :
  Body (sample_request "POST" "" None) = None /\
  buildFunctionInput world_a (sample_config "cat" false false false)
    (sample_request "POST" "" None) init =
  (Panic "invalid memory address or nil pointer dereference", init).
Proof.
  split; [reflexivity|].
  exact (proj2 (buildFunctionInput_nil_body_panics world_a
                  (sample_config "cat" false false false)
                  (sample_request "POST" "" None) init) eq_refl).
Defined.

(** ** Running the bridge *)

Ltac norm_trace := rewrite <- ?app_assoc; cbn [app]; rewrite ?app_nil_r.

Ltac run_writer :=
  unfold bind, emit, ret, Write, WriteHeader, Header_Set, bare_response;
  cbn [st_w st_trace rw_header rw_sent rw_body fst snd app init].

Lemma respond_failed w config r path args out err s :
  fresh s ->
  respond w config r path args (out, Some err) s =
    (Ret tt,
     {| st_w := bare_response 500 (bytes_of err);
        st_trace := st_trace s ++ events_500 config path args err |}).
Proof.
  destruct s as [sw tr]. unfold fresh. cbn [st_w init]. intros ->.
  unfold respond, events_500. cbn [snd].
  destruct (writeDebug config); run_writer; by norm_trace.
Qed.

Lemma respond_succeeded w config r path args out s :
  fresh s ->
  respond w config r path args (out, None) s =
    (Ret tt,
     {| st_w := {| rw_header := headers_200 w config r;
                   rw_sent := Some (200%Z, headers_200 w config r);
                   rw_body := out |};
        st_trace := st_trace s ++ events_200 w config r out |}).
Proof.
  destruct s as [sw tr]. unfold fresh. cbn [st_w init]. intros ->.
  unfold respond, events_200, events_composed, headers_200, content_type_of.
  cbn [fst snd].
  destruct (writeDebug config), (debugHeadersFlag config),
    (0 <? String.length (contentType config))%nat,
    (0 <? String.length (Header_Get (Header r) "Content-Type"))%nat;
    run_writer; rewrite ?debugHeaders_run; run_writer; by norm_trace.
Qed.

Lemma pipeRequest_run w config r method hasBody path args :
  Split (faasProcess config) = path :: args ->
  pipeRequest w config r method hasBody init =
    match getAdditionalEnvs w 1 config r method with
    | Ret envs =>
        match input_of w config r hasBody with
        | Some (_, Some msg) =>
            (Ret tt,
             {| st_w := bare_response 400 (bytes_of msg);
                st_trace := events_to_build w config r hasBody
                              ++ [EWriteHeader 400; EWrite (bytes_of msg)] |})
        | Some (body, None) =>
            match child_outcome w path args (Cmd_Env envs) (stdin_of hasBody body) with
            | Some (out, Some err) =>
                (Ret tt,
                 {| st_w := bare_response 500 (bytes_of err);
                    st_trace := events_to_join w config r path args envs hasBody body
                                  ++ [EJoin out (Some err)]
                                  ++ events_500 config path args err |})
            | Some (out, None) =>
                (Ret tt,
                 {| st_w := {| rw_header := headers_200 w config r;
                               rw_sent := Some (200%Z, headers_200 w config r);
                               rw_body := out |};
                    st_trace := events_to_join w config r path args envs hasBody body
                                  ++ [EJoin out None]
                                  ++ events_200 w config r out |})
            | None =>
                (Hang,
                 {| st_w := st_w init;
                    st_trace := events_to_join w config r path args envs hasBody body |})
            end
        | None =>
            (Panic "invalid memory address or nil pointer dereference",
             {| st_w := st_w init;
                st_trace := events_in w config r ++ [EStdinPipe] |})
        end
    | Panic msg => (Panic msg, {| st_w := st_w init; st_trace := events_in w config r |})
    | Hang => (Hang, {| st_w := st_w init; st_trace := events_in w config r |})
    end.
Proof.
  intros Hsplit. unfold pipeRequest. rewrite Hsplit.
  unfold events_to_join, events_to_build, events_in, input_of, events_feed,
    events_build, CombinedOutput.
  unfold bind at 1.
  destruct (debugHeadersFlag config) eqn:Hdbg; rewrite ?debugHeaders_run;
    cbn [ret st_w st_trace init app].
  all: unfold bind at 1, lift;
    destruct (getAdditionalEnvs w 1 config r method) as [envs|msg|]; [|done..].
  all: destruct hasBody; [destruct (Body r) as [rc|] eqn:Hbody|].
  all: unfold bind at 1; cbn [emit st_w st_trace]; unfold bind at 1;
    rewrite ?(buildFunctionInput_body _ _ _ rc) by done;
    rewrite ?buildFunctionInput_nil by done; try done.
  all: cbn [ret st_w st_trace].
  all: try (destruct (if marshalRequest config
                 then MarshalRequest w (rc_bytes rc) (Header r)
                 else (rc_bytes rc, None)) as [body [msg|]]).
  all: cbn [fst snd]; try (run_writer; by norm_trace).
  all: try set (body := @nil Byte.byte).
  all: unfold hang; run_writer;
    destruct (child_outcome w path args (Cmd_Env envs) _) as [[out [err|]]|];
    run_writer;
    rewrite ?respond_failed, ?respond_succeeded by done;
    run_writer; by norm_trace.
Qed.

(** ** The entry point *)

(** C8: POST, PUT, DELETE and UPDATE are handed to the process bridge
    with has-body true, GET with has-body false, and any other method is
    answered with 405 Method Not Allowed and nothing else happens. *)
Theorem makeRequestHandler_classifies w config r :
  (Method r ∈ ["POST"; "PUT"; "DELETE"; "UPDATE"] ->
     makeRequestHandler w config r = pipeRequest w config r (Method r) true) /\
  (Method r = "GET" ->
     makeRequestHandler w config r = pipeRequest w config r (Method r) false) /\
  (Method r ∉ ["POST"; "PUT"; "DELETE"; "UPDATE"; "GET"] ->
     serve w config r =
       (Ret tt,
        {| st_w := {| rw_header := ∅; rw_sent := Some (405%Z, ∅); rw_body := [] |};
           st_trace := [EWriteHeader 405] |})).
Proof.
  unfold serve, makeRequestHandler. repeat split.
  - intros Hm. rewrite decide_True; [done|].
    by rewrite !elem_of_cons, elem_of_nil in Hm; intuition.
  - intros Hm. rewrite decide_False, decide_True; [done..|].
    rewrite Hm. intros [|[|[|]]]; discriminate.
  - intros Hm. rewrite !not_elem_of_cons in Hm.
    rewrite decide_False, decide_False; [done|tauto|tauto].
Qed.

Lemma makeRequestHandler_classifies_witness :
  ("PUT" ∈ ["POST"; "PUT"; "DELETE"; "UPDATE"] /\
   makeRequestHandler world_a (sample_config "cat" false false false)
     (sample_request "PUT" "" (body_of "x" None)) =
   pipeRequest world_a (sample_config "cat" false false false)
     (sample_request "PUT" "" (body_of "x" None)) "PUT" true) /\
  ("GET" = "GET" /\
   makeRequestHandler world_a (sample_config "cat" false false false)
     (sample_request "GET" "" None) =
   pipeRequest world_a (sample_config "cat" false false false)
     (sample_request "GET" "" None) "GET" false) /\
  (("PATCH" ∉ ["POST"; "PUT"; "DELETE"; "UPDATE"; "GET"]) /\
   serve world_a (sample_config "cat" false false false)
     (sample_request "PATCH" "" (body_of "x" None)) =
   (Ret tt,
    {| st_w := {| rw_header := ∅; rw_sent := Some (405%Z, ∅); rw_body := [] |};
       st_trace := [EWriteHeader 405] |})).
Proof.
  assert (H1 : "PUT" ∈ ["POST"; "PUT"; "DELETE"; "UPDATE"])
    by (apply (bool_decide_unpack _); vm_compute; exact I).
  assert (H3 : "PATCH" ∉ ["POST"; "PUT"; "DELETE"; "UPDATE"; "GET"])
    by (apply (bool_decide_unpack _); vm_compute; exact I).
  split; [|split].
  - split; [exact H1|].
    exact (proj1 (makeRequestHandler_classifies world_a
                    (sample_config "cat" false false false)
                    (sample_request "PUT" "" (body_of "x" None))) H1).
  - split; [reflexivity|].
    exact (proj1 (proj2 (makeRequestHandler_classifies world_a
                    (sample_config "cat" false false false)
                    (sample_request "GET" "" None))) eq_refl).
  - split; [exact H3|].
    exact (proj2 (proj2 (makeRequestHandler_classifies world_a
                    (sample_config "cat" false false false)
                    (sample_request "PATCH" "" (body_of "x" None)))) H3).
Defined.

Lemma serve_pipe w config r hasBody :
  method_has_body (Method r) hasBody ->
  serve w config r = pipeRequest w config r (Method r) hasBody init.
Proof.
  unfold serve, makeRequestHandler. intros [[-> Hm]|[-> Hm]].
  - rewrite decide_True; [done|].
    by rewrite !elem_of_cons, elem_of_nil in Hm; intuition.
  - rewrite decide_False, decide_True; [done..|].
    rewrite Hm. intros [|[|[|]]]; discriminate.
Qed.

Ltac solve_outcome :=
  split; intros; destruct_or?; destruct_and?;
  repeat match goal with H : exists _, _ |- _ => destruct H end;
  destruct_and?; simplify_eq;
  try match goal with
      | H1 : run_proc ?p ?i ?o = _, H2 : run_proc ?p ?i ?o = _ |- _ =>
          rewrite H1 in H2; simplify_eq
      end;
  try done; try (left; done); try (right; eexists _, _; done);
  try (eexists; done); try (eexists _, _; done).

(** A failed start and a non-zero exit are the two ways for
    [CombinedOutput] to return an error. *)
Lemma child_outcome_failed w path args env stdin out err :
  child_outcome w path args env stdin = Some (out, Some err) <->
  (start_process w path args (default (Environ w) env) = inl err /\ out = []) \/
  (exists p code,
     start_process w path args (default (Environ w) env) = inr p /\
     run_proc p stdin [] = Exited out code /\
     code <> 0%Z /\ err = "exit status " +:+ pretty code).
Proof.
  unfold child_outcome.
  destruct (start_process w path args _) as [msg|p]; [solve_outcome|].
  destruct (run_proc p stdin []) as [out' code|out'] eqn:Hrun; [|solve_outcome].
  destruct (code =? 0)%Z eqn:Hc;
    [apply Z.eqb_eq in Hc | apply Z.eqb_neq in Hc]; solve_outcome.
Qed.

Lemma child_outcome_succeeded w path args env stdin out :
  child_outcome w path args env stdin = Some (out, None) <->
  exists p,
    start_process w path args (default (Environ w) env) = inr p /\
    run_proc p stdin [] = Exited out 0.
Proof.
  unfold child_outcome.
  destruct (start_process w path args _) as [msg|p]; [solve_outcome|].
  destruct (run_proc p stdin []) as [out' code|out'] eqn:Hrun; [|solve_outcome].
  destruct (code =? 0)%Z eqn:Hc;
    [apply Z.eqb_eq in Hc | apply Z.eqb_neq in Hc]; solve_outcome.
Qed.

Lemma child_outcome_blocked w path args env stdin :
  child_outcome w path args env stdin = None <->
  exists p out,
    start_process w path args (default (Environ w) env) = inr p /\
    run_proc p stdin [] = Blocked out.
Proof.
  unfold child_outcome.
  destruct (start_process w path args _) as [msg|p]; [solve_outcome|].
  destruct (run_proc p stdin []) as [out' code|out'] eqn:Hrun; [|solve_outcome].
  destruct (code =? 0)%Z eqn:Hc;
    [apply Z.eqb_eq in Hc | apply Z.eqb_neq in Hc]; solve_outcome.
Qed.

(** ** Facts about traces *)

Lemma Forall_debug_events (P : event -> Prop) w site source direction :
  (forall line, P (EPrintf line)) ->
  Forall P (debug_events w site source direction).
Proof.
  intros HP. unfold debug_events. apply Forall_fmap, Forall_true.
  intros kv. apply HP.
Qed.

Lemma Forall_events_in (P : event -> Prop) w config r :
  (forall line, P (EPrintf line)) -> Forall P (events_in w config r).
Proof.
  intros HP. unfold events_in. destruct (debugHeadersFlag config).
  - by apply Forall_debug_events.
  - constructor.
Qed.

Lemma Forall_not_elem_of (x : event) (l : list event) :
  Forall (fun e => e <> x) l -> x ∉ l.
Proof. intros Hall Hin. by apply (proj1 (Forall_forall _ _) Hall x). Qed.

Ltac trace_forall :=
  unfold events_to_join, events_to_build, events_build, events_feed,
    events_500, events_200, events_composed;
  repeat first
    [ apply Forall_app; split
    | apply Forall_events_in; intros
    | apply Forall_debug_events; intros
    | match goal with
      | |- Forall _ (if ?b then _ else _) => destruct b
      | |- Forall _ (match ?o with Some _ => _ | None => _ end) => destruct o
      end
    | constructor ];
  try done.

(** Printing the headers opens and closes nothing. *)
Lemma track_events_in w config r res :
  fold_left track (events_in w config r) res = res.
Proof.
  unfold events_in. destruct (debugHeadersFlag config); [|done].
  unfold debug_events. induction (range_order w 0 (Header r)) as [|kv l IH];
    [done|]. exact IH.
Qed.

(** ** The process bridge *)

Lemma cat_blocks n out :
  run_proc (cat (S n)) {| buffered := []; write_end_open := true |} out
  = Blocked out.
Proof. reflexivity. Qed.

Lemma cat_ends_on_closed_pipe n out :
  run_proc (cat (S n)) {| buffered := []; write_end_open := false |} out
  = Exited out 0.
Proof. reflexivity. Qed.

(** A bodiless request never writes to the child's standard input and
    never closes it, however the run ends. *)
Lemma get_never_feeds w config r o s :
  Method r = "GET" -> serve w config r = (o, s) ->
  (forall b, EStdinWrite b ∉ st_trace s) /\ EStdinClose ∉ st_trace s.
Proof.
  intros Hm. rewrite (serve_pipe _ _ _ false) by (right; done).
  destruct (Split_cons (faasProcess config)) as (path & args & Hsplit).
  rewrite (pipeRequest_run _ _ _ _ _ _ _ Hsplit).
  destruct (getAdditionalEnvs w 1 config r (Method r)) as [envs|msg|].
  2,3: intros [= <- <-]; split; [intros b|]; apply Forall_not_elem_of;
       by trace_forall.
  unfold input_of.
  destruct (child_outcome w path args (Cmd_Env envs) (stdin_of false []))
    as [[out [err|]]|];
    intros [= <- <-]; cbn [st_trace]; split; [intros b| |intros b| |intros b|];
    apply Forall_not_elem_of; by trace_forall.
Qed.

(** C1, on the code: for GET nothing is written to the child's standard
    input, but the pipe is made before the method is looked at and the
    handler never closes it, so a child that reads its input before
    exiting never sees the end of input: the handler does not return
    and no response is sent. *)
Theorem get_leaves_stdin_open w config r path args envs p out :
  Method r = "GET" ->
  Split (faasProcess config) = path :: args ->
  getAdditionalEnvs w 1 config r "GET" = Ret envs ->
  start_process w path args (default (Environ w) (Cmd_Env envs)) = inr p ->
  run_proc p {| buffered := []; write_end_open := true |} [] = Blocked out ->
  exists s,
    serve w config r = (Hang, s) /\
    (forall b, EStdinWrite b ∉ st_trace s) /\
    EStdinPipe ∈ st_trace s /\
    (EStdinClose ∉ st_trace s) /\
    stdin_write_open (open_after r (st_trace s)) = true /\
    sent_status s = None.
Proof.
  intros Hm Hsplit Henvs Hstart Hrun.
  assert (Hout : child_outcome w path args (Cmd_Env envs) (stdin_of false []) = None).
  { apply child_outcome_blocked. by exists p, out. }
  eexists. split.
  { rewrite (serve_pipe _ _ _ false) by (right; done).
    rewrite (pipeRequest_run _ _ _ _ _ _ _ Hsplit), Hm, Henvs.
    unfold input_of. by rewrite Hout. }
  cbn [st_trace st_w]. split; [|split; [|split; [|split]]].
  - intros b. apply Forall_not_elem_of. by trace_forall.
  - unfold events_to_join, events_to_build. rewrite !elem_of_app.
    left. right. left. apply list_elem_of_singleton. done.
  - apply Forall_not_elem_of. by trace_forall.
  - unfold open_after, events_to_join, events_to_build, events_build, events_feed.
    by rewrite !fold_left_app, track_events_in.
  - reflexivity.
Qed.

Lemma get_leaves_stdin_open_witness :
  Method (sample_request "GET" "" None) = "GET" /\
  Split (faasProcess (sample_config "cat" false false false)) = ["cat"] /\
  getAdditionalEnvs world_a 1 (sample_config "cat" false false false)
    (sample_request "GET" "" None) "GET" = Ret [] /\
  start_process world_a "cat" [] (default (Environ world_a) (Cmd_Env []))
    = inr (cat 4) /\
  run_proc (cat 4) {| buffered := []; write_end_open := true |} [] = Blocked [] /\
  exists s,
    serve world_a (sample_config "cat" false false false)
      (sample_request "GET" "" None) = (Hang, s) /\
    (forall b, EStdinWrite b ∉ st_trace s) /\
    EStdinPipe ∈ st_trace s /\
    (EStdinClose ∉ st_trace s) /\
    stdin_write_open (open_after (sample_request "GET" "" None) (st_trace s)) = true /\
    sent_status s = None.
Proof.
  repeat (split; [reflexivity|]).
  exact (get_leaves_stdin_open world_a (sample_config "cat" false false false)
           (sample_request "GET" "" None) "cat" [] [] (cat 4) []
           eq_refl eq_refl eq_refl eq_refl eq_refl).
Defined.

(** ** The response *)

(** C2, as stated: every response carries [X-Duration-Seconds].  It
    fails: a child that exits with status 1 is answered with status 500
    and no such header. *)
Lemma failure_response_lacks_duration :
  (serve world_a (sample_config "boom" false false false)
     (sample_request "POST" "" (body_of "x" None))).1 = Ret tt /\
  sent_status (serve world_a (sample_config "boom" false false false)
                 (sample_request "POST" "" (body_of "x" None))).2
    = Some 500%Z /\
  sent_header (serve world_a (sample_config "boom" false false false)
                 (sample_request "POST" "" (body_of "x" None))).2
    "X-Duration-Seconds" = None.
Proof. split; [|split]; vm_compute; reflexivity. Qed.

(** C2, amended: every response with status 200 carries
    [X-Duration-Seconds], whose value is the elapsed time printed with
    [%f]; every other response has status 400, 405 or 500 and carries
    no header set by the handler. *)
Theorem duration_header_on_success w config r o s :
  serve w config r = (o, s) ->
  (sent_status s = Some 200%Z ->
     sent_header s "X-Duration-Seconds"
       = Some [Sprintf_f_Seconds w (elapsed w)]) /\
  (forall code, sent_status s = Some code -> code <> 200%Z ->
     code ∈ [400; 405; 500]%Z /\ forall k, sent_header s k = None).
Proof.
  destruct (Split_cons (faasProcess config)) as (path & args & Hsplit).
  unfold serve, makeRequestHandler.
  repeat case_decide; rewrite ?(pipeRequest_run _ _ _ _ _ _ _ Hsplit).
  1,2: destruct (getAdditionalEnvs w 1 config r (Method r)) as [envs|msg|];
       [destruct (input_of w config r _) as [[body [msg|]]|];
        [|destruct (child_outcome w path args (Cmd_Env envs) _)
            as [[out [err|]]|]|]|..].
  all: intros [= <- <-]; unfold sent_status, sent_header;
    cbn [st_w rw_sent bare_response fmap option_fmap option_map fst snd WriteHeader init].
  all: split; [intros [=]|intros code [= <-] Hcode];
    try (split; [repeat constructor|intros k; apply lookup_empty]);
    try done.
  all: unfold headers_200; apply lookup_insert_eq.
Qed.

Lemma duration_header_on_success_witness :
  sent_status (serve world_a (sample_config "hello" false false false)
                 (sample_request "GET" "" None)).2 = Some 200%Z /\
  sent_header (serve world_a (sample_config "hello" false false false)
                 (sample_request "GET" "" None)).2 "X-Duration-Seconds"
    = Some ["0.001500"].
Proof.
  assert (H200 : sent_status (serve world_a (sample_config "hello" false false false)
                      (sample_request "GET" "" None)).2 = Some 200%Z)
    by (vm_compute; reflexivity).
  split; [exact H200|].
  exact (proj1 (duration_header_on_success world_a
                  (sample_config "hello" false false false)
                  (sample_request "GET" "" None) _ _
                  (surjective_pairing _)) H200).
Defined.

(** C5, on the code: when the envelope codec fails the handler answers
    400 with the codec's message as body, starts no child and closes the
    request body, but the pipe it made for the child's standard input
    before materializing the request is left open at both ends. *)
Theorem encoding_failure_leaks_pipe w config r rc envs b msg :
  Method r ∈ ["POST"; "PUT"; "DELETE"; "UPDATE"] ->
  getAdditionalEnvs w 1 config r (Method r) = Ret envs ->
  Body r = Some rc ->
  marshalRequest config = true ->
  MarshalRequest w (rc_bytes rc) (Header r) = (b, Some msg) ->
  exists s,
    serve w config r = (Ret tt, s) /\
    sent_status s = Some 400%Z /\
    sent_body s = bytes_of msg /\
    (forall path args env, ECombinedOutput path args env ∉ st_trace s) /\
    EBodyClose ∈ st_trace s /\
    open_after r (st_trace s) =
      {| body_open := false; stdin_read_open := true; stdin_write_open := true |}.
Proof.
  intros Hm Henvs Hbody Hmarshal Hcodec.
  destruct (Split_cons (faasProcess config)) as (path & args & Hsplit).
  eexists. split.
  { rewrite (serve_pipe _ _ _ true) by (left; done).
    rewrite (pipeRequest_run _ _ _ _ _ _ _ Hsplit), Henvs.
    unfold input_of. by rewrite Hbody, Hmarshal, Hcodec. }
  cbn [st_trace st_w]. split; [done|]. split; [done|]. split; [|split].
  - intros path' args' env'. apply Forall_not_elem_of. by trace_forall.
  - unfold events_to_build, events_build. rewrite Hmarshal, !elem_of_app.
    left. right. right. right. right. constructor.
  - unfold open_after, events_to_build, events_build.
    rewrite Hmarshal, !fold_left_app, track_events_in. reflexivity.
Qed.

Lemma encoding_failure_leaks_pipe_witness :
  (Method (sample_request "POST" "" (body_of "x" None))
     ∈ ["POST"; "PUT"; "DELETE"; "UPDATE"]) /\
  getAdditionalEnvs world_c 1 (sample_config "cat" true false false)
    (sample_request "POST" "" (body_of "x" None)) "POST" = Ret [] /\
  Body (sample_request "POST" "" (body_of "x" None)) = body_of "x" None /\
  marshalRequest (sample_config "cat" true false false) = true /\
  MarshalRequest world_c (bytes_of "x") sample_header
    = ([], Some "json: unsupported value") /\
  exists s,
    serve world_c (sample_config "cat" true false false)
      (sample_request "POST" "" (body_of "x" None)) = (Ret tt, s) /\
    sent_status s = Some 400%Z /\
    sent_body s = bytes_of "json: unsupported value" /\
    (forall path args env, ECombinedOutput path args env ∉ st_trace s) /\
    EBodyClose ∈ st_trace s /\
    open_after (sample_request "POST" "" (body_of "x" None)) (st_trace s) =
      {| body_open := false; stdin_read_open := true; stdin_write_open := true |}.
Proof.
  assert (Hm : Method (sample_request "POST" "" (body_of "x" None))
                 ∈ ["POST"; "PUT"; "DELETE"; "UPDATE"])
    by (apply (bool_decide_unpack _); vm_compute; exact I).
  split; [exact Hm|]. repeat (split; [reflexivity|]).
  exact (encoding_failure_leaks_pipe world_c (sample_config "cat" true false false)
           (sample_request "POST" "" (body_of "x" None))
           _ [] [] "json: unsupported value"
           Hm eq_refl eq_refl eq_refl eq_refl).
Defined.

(** C6: when the child cannot be started or exits with a non-zero
    status, the handler answers 500 and the body is the text of the
    error and nothing else, whatever output the child had produced. *)
Theorem child_failure_gives_500 w config r hasBody path args envs body out err :
  method_has_body (Method r) hasBody ->
  Split (faasProcess config) = path :: args ->
  getAdditionalEnvs w 1 config r (Method r) = Ret envs ->
  input_of w config r hasBody = Some (body, None) ->
  (start_process w path args (default (Environ w) (Cmd_Env envs)) = inl err
     /\ out = []) \/
  (exists p code,
     start_process w path args (default (Environ w) (Cmd_Env envs)) = inr p /\
     run_proc p (stdin_of hasBody body) [] = Exited out code /\
     code <> 0%Z /\ err = "exit status " +:+ pretty code) ->
  exists s,
    serve w config r = (Ret tt, s) /\
    EJoin out (Some err) ∈ st_trace s /\
    sent_status s = Some 500%Z /\
    sent_body s = bytes_of err.
Proof.
  intros Hm Hsplit Henvs Hinput Hfail.
  apply child_outcome_failed in Hfail.
  eexists. split.
  { rewrite (serve_pipe _ _ _ hasBody Hm).
    by rewrite (pipeRequest_run _ _ _ _ _ _ _ Hsplit), Henvs, Hinput, Hfail. }
  cbn [st_trace st_w]. split; [|done].
  rewrite !elem_of_app. right. left. by apply list_elem_of_singleton.
Qed.

Lemma child_failure_gives_500_witness :
  method_has_body (Method (sample_request "PUT" "" (body_of "x" None))) true /\
  Split (faasProcess (sample_config "boom" false false false)) = ["boom"] /\
  getAdditionalEnvs world_a 1 (sample_config "boom" false false false)
    (sample_request "PUT" "" (body_of "x" None)) "PUT" = Ret [] /\
  input_of world_a (sample_config "boom" false false false)
    (sample_request "PUT" "" (body_of "x" None)) true
    = Some (bytes_of "x", None) /\
  exists s,
    serve world_a (sample_config "boom" false false false)
      (sample_request "PUT" "" (body_of "x" None)) = (Ret tt, s) /\
    EJoin (bytes_of "boom") (Some "exit status 1") ∈ st_trace s /\
    sent_status s = Some 500%Z /\
    sent_body s = bytes_of "exit status 1".
Proof.
  assert (Hm : method_has_body
                 (Method (sample_request "PUT" "" (body_of "x" None))) true).
  { left. split; [reflexivity|].
    apply (bool_decide_unpack _). vm_compute. exact I. }
  split; [exact Hm|]. repeat (split; [reflexivity|]).
  apply (child_failure_gives_500 world_a (sample_config "boom" false false false)
           (sample_request "PUT" "" (body_of "x" None)) true "boom" [] []
           (bytes_of "x") (bytes_of "boom") "exit status 1"
           Hm eq_refl eq_refl eq_refl).
  right. exists boom, 1%Z.
  split; [reflexivity|]. split; [reflexivity|]. split; [lia|reflexivity].
Defined.

(** C10: with write-debug enabled, when the child has exited with
    status 0 its combined output is written to the server's own standard
    output right after the join, before the first header of the response
    is set; the response is then composed and sent with status 200. *)
Theorem success_echoes_output_first w config r hasBody path args envs body p out :
  writeDebug config = true ->
  method_has_body (Method r) hasBody ->
  Split (faasProcess config) = path :: args ->
  getAdditionalEnvs w 1 config r (Method r) = Ret envs ->
  input_of w config r hasBody = Some (body, None) ->
  start_process w path args (default (Environ w) (Cmd_Env envs)) = inr p ->
  run_proc p (stdin_of hasBody body) [] = Exited out 0 ->
  exists s pre,
    serve w config r = (Ret tt, s) /\
    st_trace s = pre ++ [EJoin out None; EStdoutWrite out]
                   ++ events_composed w config r out /\
    Forall (fun e => is_response_event e = false) pre /\
    EWriteHeader 200 ∈ events_composed w config r out /\
    EWrite out ∈ events_composed w config r out /\
    sent_status s = Some 200%Z /\
    sent_body s = out.
Proof.
  intros Hdebug Hm Hsplit Henvs Hinput Hstart Hrun.
  assert (Hok : child_outcome w path args (Cmd_Env envs) (stdin_of hasBody body)
                = Some (out, None)).
  { apply child_outcome_succeeded. by exists p. }
  eexists _, (events_to_join w config r path args envs hasBody body).
  split.
  { rewrite (serve_pipe _ _ _ hasBody Hm).
    by rewrite (pipeRequest_run _ _ _ _ _ _ _ Hsplit), Henvs, Hinput, Hok. }
  cbn [st_trace st_w]. split; [|split; [|split; [|split]]].
  - unfold events_200. by rewrite Hdebug.
  - by trace_forall.
  - unfold events_composed. rewrite !elem_of_app. right. left.
    repeat constructor.
  - unfold events_composed. rewrite !elem_of_app. right. left.
    repeat constructor.
  - done.
Qed.

Lemma success_echoes_output_first_witness :
  writeDebug (sample_config "cat" false false true) = true /\
  method_has_body (Method (sample_request "POST" "" (body_of "ping" None))) true /\
  Split (faasProcess (sample_config "cat" false false true)) = ["cat"] /\
  getAdditionalEnvs world_a 1 (sample_config "cat" false false true)
    (sample_request "POST" "" (body_of "ping" None)) "POST" = Ret [] /\
  input_of world_a (sample_config "cat" false false true)
    (sample_request "POST" "" (body_of "ping" None)) true
    = Some (bytes_of "ping", None) /\
  start_process world_a "cat" [] (default (Environ world_a) (Cmd_Env []))
    = inr (cat 4) /\
  run_proc (cat 4) (stdin_of true (bytes_of "ping")) []
    = Exited (bytes_of "ping") 0 /\
  exists s pre,
    serve world_a (sample_config "cat" false false true)
      (sample_request "POST" "" (body_of "ping" None)) = (Ret tt, s) /\
    st_trace s = pre ++ [EJoin (bytes_of "ping") None; EStdoutWrite (bytes_of "ping")]
                   ++ events_composed world_a (sample_config "cat" false false true)
                        (sample_request "POST" "" (body_of "ping" None))
                        (bytes_of "ping") /\
    Forall (fun e => is_response_event e = false) pre /\
    EWriteHeader 200 ∈ events_composed world_a (sample_config "cat" false false true)
                         (sample_request "POST" "" (body_of "ping" None))
                         (bytes_of "ping") /\
    EWrite (bytes_of "ping")
      ∈ events_composed world_a (sample_config "cat" false false true)
          (sample_request "POST" "" (body_of "ping" None)) (bytes_of "ping") /\
    sent_status s = Some 200%Z /\
    sent_body s = bytes_of "ping".
Proof.
  assert (Hm : method_has_body
                 (Method (sample_request "POST" "" (body_of "ping" None))) true).
  { left. split; [reflexivity|].
    apply (bool_decide_unpack _). vm_compute. exact I. }
  split; [reflexivity|]. split; [exact Hm|]. repeat (split; [reflexivity|]).
  exact (success_echoes_output_first world_a (sample_config "cat" false false true)
           (sample_request "POST" "" (body_of "ping" None)) true "cat" [] []
           (bytes_of "ping") (cat 4) (bytes_of "ping")
           eq_refl Hm eq_refl eq_refl eq_refl eq_refl eq_refl).
Defined.

(** ** The command line *)

Lemma string_app_cons c (s t : string) :
  String c s +:+ t = String c (s +:+ t).
Proof. reflexivity. Qed.

Lemma string_app_nil_r (s : string) : s +:+ "" = s.
Proof.
  induction s as [|c s IH]; [done|]. by rewrite string_app_cons, IH.
Qed.

Lemma string_app_assoc (s1 s2 s3 : string) :
  (s1 +:+ s2) +:+ s3 = s1 +:+ (s2 +:+ s3).
Proof.
  induction s1 as [|c s1 IH]; [done|]. by rewrite !string_app_cons, IH.
Qed.

Lemma has_space_app (s1 s2 : string) :
  has_space (s1 +:+ s2) = has_space s1 || has_space s2.
Proof.
  induction s1 as [|c s1 IH]; [done|].
  rewrite string_app_cons. simpl. by rewrite IH, orb_assoc.
Qed.

(** Joining the pieces with single spaces gives the text back. *)
Lemma split_at_concat cur s :
  String.concat " " (split_at " " cur s) = cur +:+ s.
Proof.
  revert cur. induction s as [|c s IH]; intros cur; simpl.
  - by rewrite string_app_nil_r.
  - destruct (Ascii.eqb c " ") eqn:Hc.
    + apply Ascii.eqb_eq in Hc as ->.
      specialize (IH ""). simpl in IH.
      destruct (split_at " " "" s) as [|piece rest] eqn:Hs.
      { by apply split_at_nonempty in Hs. }
      cbn [String.concat]. cbn [String.concat] in IH. by rewrite IH.
    + rewrite IH, string_app_assoc. reflexivity.
Qed.

Lemma split_at_no_space cur s :
  has_space cur = false ->
  Forall (fun piece => has_space piece = false) (split_at " " cur s).
Proof.
  revert cur. induction s as [|c s IH]; intros cur Hcur; simpl.
  - by constructor.
  - destruct (Ascii.eqb c " ") eqn:Hc.
    + constructor; [done|]. by apply IH.
    + apply IH. rewrite has_space_app, Hcur. simpl. by rewrite Hc.
Qed.

Lemma split_at_length cur s :
  length (split_at " " cur s)
  = S (length (filter (fun c => c = " "%char) (list_ascii_of_string s))).
Proof.
  revert cur. induction s as [|c s IH]; intros cur; simpl; [done|].
  destruct (Ascii.eqb c " ") eqn:Hc.
  - apply Ascii.eqb_eq in Hc as ->. rewrite filter_cons_True by done.
    simpl. by rewrite IH.
  - apply Ascii.eqb_neq in Hc. rewrite filter_cons_False by done. apply IH.
Qed.

(** ** All the runs of the handler *)

Lemma header_envs_no_hang visit envs : header_envs visit envs <> Hang.
Proof.
  revert envs. induction visit as [|[k v] visit IH]; intros envs; simpl; [done|].
  destruct v; [done|apply IH].
Qed.

Lemma getAdditionalEnvs_no_hang w site config r method :
  getAdditionalEnvs w site config r method <> Hang.
Proof.
  unfold getAdditionalEnvs. destruct (cgiHeaders config); [|done].
  destruct (header_envs _ _) eqn:Hh; [|done|by apply header_envs_no_hang in Hh].
  by destruct (0 <? _)%nat.
Qed.

(** Whatever the world, the configuration and the request, the handler
    ends in one of the seven ways of [run]. *)
Lemma serve_run w config r o s :
  serve w config r = (o, s) -> run w config r o s.
Proof.
  destruct (Split_cons (faasProcess config)) as (path & args & Hsplit).
  unfold serve, makeRequestHandler.
  destruct (decide (Method r = "POST" \/ Method r = "PUT" \/
                    Method r = "DELETE" \/ Method r = "UPDATE")) as [Hm|Hm];
    [|destruct (decide (Method r = "GET")) as [Hg|Hg]].
  3: { intros [= <- <-]. apply run_405.
       rewrite !not_elem_of_cons. repeat split; try tauto. apply not_elem_of_nil. }
  1: assert (Hhas : method_has_body (Method r) true)
       by (left; split; [done|]; rewrite !elem_of_cons; tauto).
  2: assert (Hhas : method_has_body (Method r) false) by (by right).
  all: rewrite (pipeRequest_run _ _ _ _ _ _ _ Hsplit).
  all: destruct (getAdditionalEnvs w 1 config r (Method r)) as [envs|msg|] eqn:Henvs;
    [|intros [= <- <-]; by eapply run_envs_panic
     |by apply getAdditionalEnvs_no_hang in Henvs].
  all: destruct (input_of w config r _) as [[body [msg|]]|] eqn:Hinput;
    [intros [= <- <-]; by eapply run_400
    | |intros [= <- <-]; by eapply run_nil_body].
  all: destruct (child_outcome w path args (Cmd_Env envs) _)
         as [[out [err|]]|] eqn:Hchild; intros [= <- <-].
  all: first [by eapply run_500 | by eapply run_200 | by eapply run_hang].
Qed.

Lemma Forall_elem (P : event -> Prop) (l : list event) (e : event) :
  Forall P l -> e ∈ l -> P e.
Proof. intros Hall Hin. by apply (proj1 (Forall_forall _ _) Hall). Qed.

Lemma count_events_app p l1 l2 :
  count_events p (l1 ++ l2) = count_events p l1 + count_events p l2.
Proof. induction l1 as [|e l1 IH]; simpl; [done|]. rewrite IH. lia. Qed.

Lemma count_events_none p l :
  Forall (fun e => p e = false) l -> count_events p l = 0.
Proof. induction 1 as [|e l He _ IH]; simpl; [done|]. by rewrite He, IH. Qed.

(** A property of every event of a trace, stage by stage. *)
Ltac trace_all :=
  unfold events_to_join, events_to_build, events_build, events_feed,
    events_500, events_200, events_composed;
  repeat first
    [ apply Forall_events_in; intros
    | apply Forall_debug_events; intros
    | match goal with
      | |- Forall _ (_ ++ _) => apply Forall_app; split
      | |- Forall _ (if ?b then _ else _) => destruct b
      | |- Forall _ (match ?o with Some _ => _ | None => _ end) => destruct o
      | |- Forall _ (_ :: _) => constructor
      | |- Forall _ [] => constructor
      end ];
  try done.

(** From membership in a trace to a property of the event. *)
Ltac in_trace Hin P :=
  match type of Hin with
  | ?e ∈ ?l =>
      let Hall := fresh "Hall" in
      let Hp := fresh "Hp" in
      assert (Hall : Forall P l)
        by (trace_all; intros; by simplify_eq);
      pose proof (Forall_elem P l e Hall Hin) as Hp;
      clear Hall Hin; rename Hp into Hin; cbv beta in Hin
  end.

(** The child is started with the executable and the arguments that
    the command line splits into: single spaces separate them, and
    joining them with single spaces gives the command line back. *)
Theorem child_command_line w config r o s path args env :
  serve w config r = (o, s) ->
  ECombinedOutput path args env ∈ st_trace s ->
  String.concat " " (path :: args) = faasProcess config /\
  Forall (fun piece => has_space piece = false) (path :: args) /\
  length (path :: args)
  = S (length (filter (fun c => c = " "%char)
                 (list_ascii_of_string (faasProcess config)))).
Proof.
  intros Hrun Hin. apply serve_run in Hrun.
  assert (Hparts : path :: args = Split (faasProcess config)).
  { destruct Hrun as [ | | | |? path0 args0 envs ? ? Hsplit
                       |? path0 args0 envs ? ? ? ? Hsplit
                       |? path0 args0 envs ? ? ? Hsplit]; cbn [st_trace] in Hin.
    1-4: in_trace Hin (fun e => is_spawn e = false); discriminate.
    all: rewrite Hsplit;
      in_trace Hin (fun e => is_spawn e = true ->
                      e = ECombinedOutput path0 args0 (Cmd_Env envs));
      specialize (Hin eq_refl); by inversion Hin. }
  rewrite Hparts. unfold Split. split; [|split].
  - apply split_at_concat.
  - by apply split_at_no_space.
  - apply split_at_length.
Qed.

(** ** The child's environment *)

Lemma header_envs_extends visit acc envs :
  header_envs visit acc = Ret envs -> exists hs, envs = acc ++ hs.
Proof.
  revert acc. induction visit as [|[k v] visit IH]; intros acc; simpl.
  - intros [= <-]. exists []. by rewrite app_nil_r.
  - destruct v as [|v0 v]; [done|]. intros [hs ->]%IH.
    eexists. by rewrite <- app_assoc.
Qed.

Lemma getAdditionalEnvs_Ret w site config r method envs :
  getAdditionalEnvs w site config r method = Ret envs ->
  (cgiHeaders config = false /\ envs = []) \/
  (cgiHeaders config = true /\
   exists rest, rest <> [] /\ envs = Environ w ++ rest).
Proof.
  unfold getAdditionalEnvs. destruct (cgiHeaders config).
  - destruct (header_envs _ _) as [hs| |] eqn:Hh; [|done..].
    apply header_envs_extends in Hh as [rest ->]. intros Hret. right.
    split; [done|].
    destruct (0 <? _)%nat; injection Hret as <-; rewrite <- !app_assoc;
      (eexists; split; [|reflexivity]); by destruct rest.
  - intros [= <-]. by left.
Qed.

(** The environment the child is started with: with cgi-headers
    disabled [Cmd.Env] stays nil and the child inherits the server's
    environment; with it enabled [Cmd.Env] is the server's environment
    followed by at least one more entry.  Either way the child sees the
    whole environment of the server, in its order, first. *)
Theorem child_environment w config r o s path args env :
  serve w config r = (o, s) ->
  ECombinedOutput path args env ∈ st_trace s ->
  (cgiHeaders config = false -> env = None) /\
  (cgiHeaders config = true ->
     exists rest, rest <> [] /\ env = Some (Environ w ++ rest)) /\
  Environ w `prefix_of` default (Environ w) env.
Proof.
  intros Hrun Hin. apply serve_run in Hrun.
  assert (Henv : exists envs,
             getAdditionalEnvs w 1 config r (Method r) = Ret envs /\
             env = Cmd_Env envs).
  { destruct Hrun as [ | | | |? path0 args0 envs ? ? ? Henvs
                       |? path0 args0 envs ? ? ? ? ? Henvs
                       |? path0 args0 envs ? ? ? ? Henvs]; cbn [st_trace] in Hin.
    1-4: in_trace Hin (fun e => is_spawn e = false); discriminate.
    all: exists envs; split; [done|];
      in_trace Hin (fun e => is_spawn e = true ->
                      e = ECombinedOutput path0 args0 (Cmd_Env envs));
      specialize (Hin eq_refl); by inversion Hin. }
  destruct Henv as (envs & Henvs & ->).
  apply getAdditionalEnvs_Ret in Henvs
    as [[Hcgi ->]|(Hcgi & rest & Hrest & ->)]; rewrite Hcgi.
  - split; [done|]. split; [done|]. reflexivity.
  - assert (Hset : Cmd_Env (Environ w ++ rest) = Some (Environ w ++ rest)).
    { unfold Cmd_Env. rewrite length_app.
      destruct rest; [done|]. simpl.
      by replace (length (Environ w) + S (length rest))
        with (S (length (Environ w) + length rest)) by lia. }
    rewrite Hset. split; [done|]. split; [by exists rest|]. by exists rest.
Qed.

(** ** The response, by status *)

Lemma length_pos_decide (q : string) :
  (0 <? String.length q)%nat = if decide (q = "") then false else true.
Proof. by destruct q. Qed.

(** The [Content-Type] of a successful response is the configured
    override when there is one, else the first [Content-Type] value of
    the request when that is not empty, else the header is absent. *)
Theorem content_type_negotiation w config r o s :
  serve w config r = (o, s) ->
  sent_status s = Some 200%Z ->
  sent_header s "Content-Type" =
    if decide (contentType config = "") then
      if decide (Header_Get (Header r) "Content-Type" = "") then None
      else Some [Header_Get (Header r) "Content-Type"]
    else Some [contentType config].
Proof.
  intros Hrun. apply serve_run in Hrun.
  destruct Hrun; unfold sent_status, sent_header;
    cbn [st_w rw_sent bare_response fmap option_fmap option_map fst init];
    intros [=].
  unfold headers_200, content_type_of. rewrite lookup_insert_ne by done.
  rewrite !length_pos_decide.
  repeat case_decide; by rewrite ?lookup_insert_eq, ?lookup_empty.
Qed.

(** A response with status 400 comes from a failure of the envelope
    codec on the body that was read, and its body is the codec's
    message; with marshal-request disabled the handler never answers
    400. *)
Theorem bad_request_only_from_codec w config r o s :
  serve w config r = (o, s) ->
  sent_status s = Some 400%Z ->
  marshalRequest config = true /\
  exists rc envelope msg,
    Body r = Some rc /\
    MarshalRequest w (rc_bytes rc) (Header r) = (envelope, Some msg) /\
    sent_body s = bytes_of msg.
Proof.
  intros Hrun. apply serve_run in Hrun.
  destruct Hrun as [ | | |hasBody envs body msg _ _ Hinput| | | ];
    unfold sent_status;
    cbn [st_w rw_sent bare_response fmap option_fmap option_map fst init];
    intros [=].
  unfold input_of in Hinput. destruct hasBody; [|done].
  destruct (Body r) as [rc|]; [|done].
  destruct (marshalRequest config); [|done].
  split; [done|]. exists rc, body, msg. split; [done|].
  split; [by injection Hinput|done].
Qed.

(** A response with status 500 comes from a child that could not be
    started or exited with a non-zero status.  Its body is the error
    text; what the child had written goes neither to the response nor
    to the server's standard output, and with write-debug enabled the
    command and the error are logged. *)
Theorem failure_discards_output w config r o s :
  serve w config r = (o, s) ->
  sent_status s = Some 500%Z ->
  exists out err,
    EJoin out (Some err) ∈ st_trace s /\
    sent_body s = bytes_of err /\
    (forall b, EStdoutWrite b ∉ st_trace s) /\
    (forall b, EWrite b ∈ st_trace s -> b = bytes_of err) /\
    (writeDebug config = true ->
       exists path args, ELogPrintln path args err ∈ st_trace s).
Proof.
  intros Hrun. apply serve_run in Hrun.
  destruct Hrun as [ | | | | |hasBody path args envs body out err| ];
    unfold sent_status;
    cbn [st_w rw_sent bare_response fmap option_fmap option_map fst init];
    intros [=].
  exists out, err. cbn [st_trace]. split; [|split; [done|split; [|split]]].
  - rewrite !elem_of_app. right. left. by apply list_elem_of_singleton.
  - intros b. apply Forall_not_elem_of. by trace_all.
  - intros b Hin.
    in_trace Hin (fun e => forall b, e = EWrite b -> b = bytes_of err).
    by apply Hin.
  - intros Hdebug. exists path, args. unfold events_500. rewrite Hdebug.
    rewrite !elem_of_app. right. right. left. by apply list_elem_of_singleton.
Qed.

(** ** What a run never does *)

(** With debug-headers and write-debug both disabled the handler
    prints nothing and logs nothing, however the run ends. *)
Theorem silent_without_debug w config r o s :
  debugHeadersFlag config = false ->
  writeDebug config = false ->
  serve w config r = (o, s) ->
  Forall (fun e => is_diagnostic e = false) (st_trace s).
Proof.
  intros Hheaders Hdebug Hrun. apply serve_run in Hrun.
  destruct Hrun; cbn [st_trace];
    unfold events_to_join, events_to_build, events_in, events_500,
      events_200, events_composed;
    rewrite ?Hheaders, ?Hdebug; by trace_all.
Qed.

Ltac count_trace :=
  unfold events_to_join, events_to_build, events_build, events_feed,
    events_500, events_200, events_composed, events_in;
  repeat match goal with
         | |- context [if ?b then _ else _] => destruct b
         | |- context [match ?o with Some _ => _ | None => _ end] => destruct o
         end;
  rewrite ?count_events_app;
  rewrite ?(count_events_none _ (debug_events _ _ _ _))
    by (by apply Forall_debug_events);
  cbn [count_events is_spawn is_stdin_pipe is_write_header Nat.add].

(** A run that returns has sent exactly one status line, together with
    every header that was set; a run that panics or never returns has
    sent nothing at all. *)
Theorem response_iff_return w config r o s :
  serve w config r = (o, s) ->
  (o = Ret tt ->
     exists code,
       rw_sent (st_w s) = Some (code, rw_header (st_w s)) /\
       count_events is_write_header (st_trace s) = 1) /\
  (o <> Ret tt ->
     rw_sent (st_w s) = None /\ sent_body s = [] /\
     Forall (fun e => is_response_event e = false) (st_trace s)).
Proof.
  intros Hrun. apply serve_run in Hrun.
  destruct Hrun; cbn [st_trace st_w rw_sent rw_header bare_response init].
  all: split; intros Hret.
  all: first
         [ discriminate
         | done
         | eexists; split; [reflexivity|]; by count_trace
         | split; [done|]; split; [done|]; by trace_all ].
Qed.


(** ** Feeding the child *)


(** ** Success *)

(** When the child exits with status 0 the response has status 200 and
    its body is the child's combined output, byte for byte; nothing
    else is written to the response body. *)
Theorem success_returns_output w config r hasBody path args envs body p out :
  method_has_body (Method r) hasBody ->
  Split (faasProcess config) = path :: args ->
  getAdditionalEnvs w 1 config r (Method r) = Ret envs ->
  input_of w config r hasBody = Some (body, None) ->
  start_process w path args (default (Environ w) (Cmd_Env envs)) = inr p ->
  run_proc p (stdin_of hasBody body) [] = Exited out 0 ->
  exists s,
    serve w config r = (Ret tt, s) /\
    sent_status s = Some 200%Z /\
    sent_body s = out /\
    (forall b, EWrite b ∈ st_trace s -> b = out).
Proof.
  intros Hm Hsplit Henvs Hinput Hstart Hrun.
  assert (Hok : child_outcome w path args (Cmd_Env envs) (stdin_of hasBody body)
                = Some (out, None)).
  { apply child_outcome_succeeded. by exists p. }
  eexists. split.
  { rewrite (serve_pipe _ _ _ hasBody Hm).
    by rewrite (pipeRequest_run _ _ _ _ _ _ _ Hsplit), Henvs, Hinput, Hok. }
  cbn [st_trace st_w]. split; [done|]. split; [done|].
  intros b Hin. in_trace Hin (fun e => forall b, e = EWrite b -> b = out).
  by apply Hin.
Qed.



(** ** Headers without a value *)

(** With cgi-headers enabled, a request that carries a header with an
    empty list of values makes the handler panic on [v[0]], whatever
    the order the headers are visited in, before the pipe is made, the
    child started or anything sent. *)
Theorem valueless_header_panics w config r hasBody k :
  range_ok w ->
  cgiHeaders config = true ->
  method_has_body (Method r) hasBody ->
  Header r !! k = Some [] ->
  exists s,
    serve w config r = (Panic "index out of range", s) /\
    sent_status s = None /\
    Forall (fun e => is_stdin_pipe e = false /\ is_spawn e = false) (st_trace s).
Proof.
  intros Hrange Hcgi Hm Hk.
  destruct (Split_cons (faasProcess config)) as (path & args & Hsplit).
  assert (Hpanic : getAdditionalEnvs w 1 config r (Method r)
                   = Panic "index out of range").
  { unfold getAdditionalEnvs. rewrite Hcgi, header_envs_panic; [done|].
    apply (no_value_visit (Header r)); [apply Hrange|].
    intros Hval. by apply (Hval k [] Hk). }
  eexists. split.
  { by rewrite (serve_pipe _ _ _ hasBody Hm),
      (pipeRequest_run _ _ _ _ _ _ _ Hsplit), Hpanic. }
  cbn [st_trace st_w]. split; [done|]. by trace_all.
Qed.

(** ** [debugHeaders] *)

(** [debugHeaders] prints one line for each header name, also for a
    header with several values or with none, and does nothing else: it
    cannot fail and leaves the response untouched. *)
Theorem debugHeaders_one_line_per_header w site (source : HttpHeader) direction s :
  range_ok w ->
  exists lines,
    debugHeaders w site source direction s =
      (Ret tt, {| st_w := st_w s;
                  st_trace := st_trace s ++ (EPrintf <$> lines) |}) /\
    length lines = size source /\
    (forall k vv, source !! k = Some vv ->
       ("[" +:+ direction +:+ "] " +:+ k +:+ "=[" +:+ String.concat " " vv
          +:+ "]" +:+ newline) ∈ lines).
Proof.
  intros Hrange.
  exists (debug_line direction <$> range_order w site source).
  split; [|split].
  - rewrite debugHeaders_run. unfold debug_events.
    by rewrite <- list_fmap_compose.
  - rewrite length_fmap, (Hrange site source). apply length_map_to_list.
  - intros k vv Hk. apply list_elem_of_fmap. exists (k, vv). split.
    + unfold debug_line, fmt_strings. simpl.
      by rewrite !string_app_assoc.
    + rewrite (Hrange site source). by apply elem_of_map_to_list.
Qed.

(** ** Descriptors *)

Lemma track_debug_events w site source direction res :
  fold_left track (debug_events w site source direction) res = res.
Proof.
  unfold debug_events.
  induction (range_order w site source) as [|kv l IH]; [done|]. exact IH.
Qed.

(** Once a response with status 200 or 500 is sent, both ends of the
    pipe to the child are released, and for a method with a body the
    body of the request has been closed. *)
Theorem descriptors_released_after_join w config r o s :
  serve w config r = (o, s) ->
  sent_status s = Some 200%Z \/ sent_status s = Some 500%Z ->
  stdin_read_open (open_after r (st_trace s)) = false /\
  stdin_write_open (open_after r (st_trace s)) = false /\
  (Method r <> "GET" -> body_open (open_after r (st_trace s)) = false).
Proof.
  intros Hrun. apply serve_run in Hrun.
  destruct Hrun as [ | | | | |hasBody path args envs body out err Hm _ _ Hinput _
                     |hasBody path args envs body out Hm _ _ Hinput _];
    unfold sent_status;
    cbn [st_w st_trace rw_sent bare_response fmap option_fmap option_map fst init];
    intros [[=]|[=]].
  all: unfold open_after, events_to_join, events_to_build, events_build,
         events_feed, events_500, events_200, events_composed, events_in;
    destruct hasBody;
    [|destruct Hm as [[[=] _]|[_ Hget]]].
  all: repeat match goal with
              | |- context [if ?b then _ else _] => destruct b
              | |- context [match ?o with Some _ => _ | None => _ end] =>
                  destruct o
              end;
    rewrite ?fold_left_app, ?track_debug_events; cbn [fold_left track];
    rewrite ?track_debug_events;
    cbn [stdin_read_open stdin_write_open body_open]; try done.
Qed.

(** ** Startup *)

Lemma wrap64_small z :
  (- 2 ^ 63 <= z < 2 ^ 63)%Z -> wrap64 z = z.
Proof. intros Hz. unfold wrap64. rewrite Z.mod_small by lia. lia. Qed.

Lemma length_zero_empty (s : string) :
  (String.length s =? 0)%nat = bool_decide (s = "").
Proof. by destruct s. Qed.

(** With an empty command line [main] panics at once: no handler is
    registered, no lock file is written and the server never listens.
    With any other command line the handler for ["/"] is registered
    first, made from the configuration that was read. *)
Theorem main_needs_a_command h :
  (faasProcess (Read h) = "" ->
     main h =
       ([SPanicln "Provide a valid process via fprocess environmental variable."],
        StartupPanic)) /\
  (faasProcess (Read h) <> "" ->
     exists rest, (main h).1 = SHandleFunc "/" (Read h) :: rest).
Proof.
  unfold main. rewrite length_zero_empty. split; intros Hp.
  - by rewrite bool_decide_eq_true_2.
  - rewrite bool_decide_eq_false_2 by done.
    destruct (suppressLock (Read h)); [by eexists|].
    destruct (WriteFile h lock_path [] 432); by eexists.
Qed.

(** The lock file.  Unless suppress-lock is set, [/tmp/.lock] is
    written, empty and with mode 0660, before the server listens, and
    if the write fails [main] panics and the server never listens.
    With suppress-lock set no file is written. *)
Theorem lock_file_before_listen h :
  faasProcess (Read h) <> "" ->
  (suppressLock (Read h) = true ->
     Forall (fun e => is_write_file e = false) (main h).1 /\
     exists srv, SListenAndServe srv ∈ (main h).1) /\
  (suppressLock (Read h) = false ->
     exists pre post,
       (main h).1 = pre ++ [SWriteFile "/tmp/.lock" [] 432] ++ post /\
       Forall (fun e => is_listen e = false) pre /\
       (WriteFile h "/tmp/.lock" [] 432 = None ->
          exists srv, SListenAndServe srv ∈ post) /\
       (forall err, WriteFile h "/tmp/.lock" [] 432 = Some err ->
          (main h).2 = StartupPanic /\
          Forall (fun e => is_listen e = false) post)).
Proof.
  intros Hp. unfold main. rewrite length_zero_empty.
  rewrite bool_decide_eq_false_2 by done. split; intros Hlock; rewrite Hlock.
  - destruct (ListenAndServe h _); cbn [fst snd app]; split;
      try (repeat constructor; fail); eexists; repeat constructor.
  - eexists [_; _]. unfold lock_path.
    destruct (WriteFile h "/tmp/.lock" [] 432) as [err|].
    + eexists. cbn [fst snd app]. split; [reflexivity|].
      split; [by repeat constructor|]. split; [done|].
      intros err' _. split; [done|]. by repeat constructor.
    + destruct (ListenAndServe h _); eexists; cbn [fst snd app];
        (split; [reflexivity|]); (split; [by repeat constructor|]);
        (split; [intros _; eexists; repeat constructor|done]).
Qed.

(** The server [main] starts listens on [:8080] with at most 1 MiB of
    request headers, and its timeouts are the configured numbers of
    seconds, as long as these fit a duration in nanoseconds (up to
    9223372036 seconds either way). *)
Theorem server_parameters h srv :
  SListenAndServe srv ∈ (main h).1 ->
  (-9223372036 <= readTimeout (Read h) <= 9223372036)%Z ->
  (-9223372036 <= writeTimeout (Read h) <= 9223372036)%Z ->
  Addr srv = ":8080" /\
  ReadTimeout srv = (readTimeout (Read h) * 1000000000)%Z /\
  WriteTimeout srv = (writeTimeout (Read h) * 1000000000)%Z /\
  MaxHeaderBytes srv = 1048576%Z.
Proof.
  intros Hin Hr Hw.
  assert (Hsrv : srv = {| Addr := ":8080";
                          ReadTimeout := wrap64 (readTimeout (Read h) * Second);
                          WriteTimeout := wrap64 (writeTimeout (Read h) * Second);
                          MaxHeaderBytes := Z.shiftl 1 20 |}).
  { revert Hin. unfold main.
    destruct (String.length _ =? 0)%nat; cbn [fst].
    { rewrite list_elem_of_singleton. discriminate. }
    destruct (suppressLock (Read h));
      [|destruct (WriteFile h lock_path [] 432)];
      try destruct (ListenAndServe h _); cbn [fst snd app];
      rewrite ?elem_of_cons, ?elem_of_nil; intros Hin;
      repeat (destruct Hin as [Hin|Hin]; [try discriminate|]);
      try done; by injection Hin. }
  subst srv. cbn [Addr ReadTimeout WriteTimeout MaxHeaderBytes].
  unfold Second. rewrite !wrap64_small by lia. done.
Qed.

(** ** The theorems above at sample runs *)


Lemma get_has_no_body : method_has_body (Method get_plain) false.
Proof. right. split; reflexivity. Qed.

Lemma world_a_range_ok : range_ok world_a.
Proof. intros n h. reflexivity. Qed.

Lemma get_never_feeds_witness :
  Method get_plain = "GET" /\
  (forall b, EStdinWrite b ∉ st_trace (serve world_a (cfg "hello") get_plain).2) /\
  (EStdinClose ∉ st_trace (serve world_a (cfg "hello") get_plain).2).
Proof.
  split; [reflexivity|].
  exact (get_never_feeds world_a (cfg "hello") get_plain _ _
           eq_refl (surjective_pairing _)).
Defined.

Lemma child_command_line_witness :
  ECombinedOutput "cat" ["-n"] None
    ∈ st_trace (serve world_a (cfg "cat -n") post_x).2 /\
  String.concat " " ["cat"; "-n"] = "cat -n" /\
  Forall (fun piece => has_space piece = false) ["cat"; "-n"] /\
  length ["cat"; "-n"] = 2.
Proof.
  assert (Hin : ECombinedOutput "cat" ["-n"] None
                  ∈ st_trace (serve world_a (cfg "cat -n") post_x).2)
    by (vm_compute; repeat constructor).
  split; [exact Hin|].
  exact (child_command_line world_a (cfg "cat -n") post_x _ _ _ _ _
           (surjective_pairing _) Hin).
Defined.

Lemma child_environment_witness :
  ECombinedOutput "cat" []
    (Some ["PATH=/bin"; "Http_Content-Type=text/plain"; "Http_Accept=text/html";
           "Http_Method=POST"])
    ∈ st_trace (serve world_a (sample_config "cat" false true false) post_x).2 /\
  (cgiHeaders (sample_config "cat" false true false) = true ->
   exists rest,
     rest <> [] /\
     Some ["PATH=/bin"; "Http_Content-Type=text/plain"; "Http_Accept=text/html";
           "Http_Method=POST"] = Some (Environ world_a ++ rest)).
Proof.
  assert (Hin : ECombinedOutput "cat" []
                  (Some ["PATH=/bin"; "Http_Content-Type=text/plain";
                         "Http_Accept=text/html"; "Http_Method=POST"])
                  ∈ st_trace (serve world_a (sample_config "cat" false true false)
                                post_x).2)
    by (vm_compute; repeat constructor).
  split; [exact Hin|].
  exact (proj1 (proj2 (child_environment world_a
                         (sample_config "cat" false true false) post_x _ _ _ _ _
                         (surjective_pairing _) Hin))).
Defined.

Lemma content_type_negotiation_witness :
  sent_status (serve world_a (cfg "hello") get_plain).2 = Some 200%Z /\
  sent_header (serve world_a (cfg "hello") get_plain).2 "Content-Type"
    = Some ["text/plain"].
Proof.
  assert (H200 : sent_status (serve world_a (cfg "hello") get_plain).2 = Some 200%Z)
    by (vm_compute; reflexivity).
  split; [exact H200|].
  exact (content_type_negotiation world_a (cfg "hello") get_plain _ _
           (surjective_pairing _) H200).
Defined.

Lemma bad_request_only_from_codec_witness :
  sent_status (serve world_c (sample_config "cat" true false false) post_x).2
    = Some 400%Z /\
  marshalRequest (sample_config "cat" true false false) = true /\
  exists rc envelope msg,
    Body post_x = Some rc /\
    MarshalRequest world_c (rc_bytes rc) (Header post_x) = (envelope, Some msg) /\
    sent_body (serve world_c (sample_config "cat" true false false) post_x).2
      = bytes_of msg.
Proof.
  assert (H400 : sent_status (serve world_c (sample_config "cat" true false false)
                                post_x).2 = Some 400%Z)
    by (vm_compute; reflexivity).
  split; [exact H400|].
  exact (bad_request_only_from_codec world_c (sample_config "cat" true false false)
           post_x _ _ (surjective_pairing _) H400).
Defined.

Lemma failure_discards_output_witness :
  sent_status (serve world_a (sample_config "boom" false false true) post_x).2
    = Some 500%Z /\
  exists out err,
    EJoin out (Some err)
      ∈ st_trace (serve world_a (sample_config "boom" false false true) post_x).2 /\
    sent_body (serve world_a (sample_config "boom" false false true) post_x).2
      = bytes_of err /\
    (forall b, EStdoutWrite b
       ∉ st_trace (serve world_a (sample_config "boom" false false true) post_x).2) /\
    (forall b, EWrite b
       ∈ st_trace (serve world_a (sample_config "boom" false false true) post_x).2 ->
       b = bytes_of err) /\
    (writeDebug (sample_config "boom" false false true) = true ->
     exists path args,
       ELogPrintln path args err
         ∈ st_trace (serve world_a (sample_config "boom" false false true)
                       post_x).2).
Proof.
  assert (H500 : sent_status (serve world_a (sample_config "boom" false false true)
                                post_x).2 = Some 500%Z)
    by (vm_compute; reflexivity).
  split; [exact H500|].
  exact (failure_discards_output world_a (sample_config "boom" false false true)
           post_x _ _ (surjective_pairing _) H500).
Defined.

Lemma silent_without_debug_witness :
  debugHeadersFlag (cfg "hello") = false /\
  writeDebug (cfg "hello") = false /\
  Forall (fun e => is_diagnostic e = false)
    (st_trace (serve world_a (cfg "hello") get_plain).2).
Proof.
  split; [reflexivity|]. split; [reflexivity|].
  exact (silent_without_debug world_a (cfg "hello") get_plain _ _
           eq_refl eq_refl (surjective_pairing _)).
Defined.

Lemma response_iff_return_witness :
  (serve world_a (cfg "hello") get_plain).1 = Ret tt /\
  exists code,
    rw_sent (st_w (serve world_a (cfg "hello") get_plain).2)
      = Some (code, rw_header (st_w (serve world_a (cfg "hello") get_plain).2)) /\
    count_events is_write_header
      (st_trace (serve world_a (cfg "hello") get_plain).2) = 1.
Proof.
  assert (Hret : (serve world_a (cfg "hello") get_plain).1 = Ret tt)
    by (vm_compute; reflexivity).
  split; [exact Hret|].
  exact (proj1 (response_iff_return world_a (cfg "hello") get_plain _ _
                  (surjective_pairing _)) Hret).
Defined.



Lemma success_returns_output_witness :
  method_has_body (Method get_plain) false /\
  Split (faasProcess (cfg "hello")) = ["hello"] /\
  getAdditionalEnvs world_a 1 (cfg "hello") get_plain (Method get_plain) = Ret [] /\
  input_of world_a (cfg "hello") get_plain false = Some ([], None) /\
  start_process world_a "hello" [] (default (Environ world_a) (Cmd_Env []))
    = inr hello /\
  run_proc hello (stdin_of false []) [] = Exited (bytes_of "hello") 0 /\
  exists s,
    serve world_a (cfg "hello") get_plain = (Ret tt, s) /\
    sent_status s = Some 200%Z /\
    sent_body s = bytes_of "hello" /\
    (forall b, EWrite b ∈ st_trace s -> b = bytes_of "hello").
Proof.
  split; [exact get_has_no_body|]. repeat (split; [reflexivity|]).
  exact (success_returns_output world_a (cfg "hello") get_plain false "hello" [] []
           [] hello (bytes_of "hello")
           get_has_no_body eq_refl eq_refl eq_refl eq_refl eq_refl).
Defined.


Lemma valueless_header_panics_witness :
  range_ok world_a /\
  cgiHeaders (sample_config "cat" false true false) = true /\
  method_has_body (Method get_valueless) false /\
  Header get_valueless !! "X-Empty" = Some [] /\
  exists s,
    serve world_a (sample_config "cat" false true false) get_valueless
      = (Panic "index out of range", s) /\
    sent_status s = None /\
    Forall (fun e => is_stdin_pipe e = false /\ is_spawn e = false) (st_trace s).
Proof.
  assert (Hm : method_has_body (Method get_valueless) false)
    by (right; split; reflexivity).
  assert (Hk : Header get_valueless !! "X-Empty" = Some [])
    by (vm_compute; reflexivity).
  split; [exact world_a_range_ok|]. split; [reflexivity|].
  split; [exact Hm|]. split; [exact Hk|].
  exact (valueless_header_panics world_a (sample_config "cat" false true false)
           get_valueless false "X-Empty" world_a_range_ok eq_refl Hm Hk).
Defined.

Lemma debugHeaders_one_line_per_header_witness :
  range_ok world_a /\
  exists lines,
    debugHeaders world_a 0 sample_header "in" init =
      (Ret tt, {| st_w := st_w init;
                  st_trace := st_trace init ++ (EPrintf <$> lines) |}) /\
    length lines = size sample_header /\
    (forall k vv, sample_header !! k = Some vv ->
       ("[" +:+ "in" +:+ "] " +:+ k +:+ "=[" +:+ String.concat " " vv
          +:+ "]" +:+ newline) ∈ lines).
Proof.
  split; [exact world_a_range_ok|].
  exact (debugHeaders_one_line_per_header world_a 0 sample_header "in" init
           world_a_range_ok).
Defined.

Lemma descriptors_released_after_join_witness :
  (sent_status (serve world_a (cfg "cat") post_x).2 = Some 200%Z \/
   sent_status (serve world_a (cfg "cat") post_x).2 = Some 500%Z) /\
  stdin_read_open (open_after post_x (st_trace (serve world_a (cfg "cat") post_x).2))
    = false /\
  stdin_write_open (open_after post_x (st_trace (serve world_a (cfg "cat") post_x).2))
    = false /\
  (Method post_x <> "GET" ->
   body_open (open_after post_x (st_trace (serve world_a (cfg "cat") post_x).2))
     = false).
Proof.
  assert (H200 : sent_status (serve world_a (cfg "cat") post_x).2 = Some 200%Z \/
                 sent_status (serve world_a (cfg "cat") post_x).2 = Some 500%Z)
    by (left; vm_compute; reflexivity).
  split; [exact H200|].
  exact (descriptors_released_after_join world_a (cfg "cat") post_x _ _
           (surjective_pairing _) H200).
Defined.

Lemma main_needs_a_command_witness :
  (faasProcess (Read (sample_host (cfg "") None)) = "" /\
   main (sample_host (cfg "") None) =
     ([SPanicln "Provide a valid process via fprocess environmental variable."],
      StartupPanic)) /\
  (faasProcess (Read (sample_host (cfg "cat") None)) <> "" /\
   exists rest,
     (main (sample_host (cfg "cat") None)).1
       = SHandleFunc "/" (Read (sample_host (cfg "cat") None)) :: rest).
Proof.
  assert (Hne : faasProcess (Read (sample_host (cfg "cat") None)) <> "")
    by discriminate.
  split; (split; [first [reflexivity | exact Hne]|]).
  - exact (proj1 (main_needs_a_command (sample_host (cfg "") None)) eq_refl).
  - exact (proj2 (main_needs_a_command (sample_host (cfg "cat") None)) Hne).
Defined.

Lemma lock_file_before_listen_witness :
  faasProcess (Read (sample_host (cfg "cat") (Some "permission denied"))) <> "" /\
  suppressLock (Read (sample_host (cfg "cat") (Some "permission denied"))) = false /\
  exists pre post,
    (main (sample_host (cfg "cat") (Some "permission denied"))).1
      = pre ++ [SWriteFile "/tmp/.lock" [] 432] ++ post /\
    Forall (fun e => is_listen e = false) pre /\
    (WriteFile (sample_host (cfg "cat") (Some "permission denied"))
       "/tmp/.lock" [] 432 = None ->
     exists srv, SListenAndServe srv ∈ post) /\
    (forall err,
       WriteFile (sample_host (cfg "cat") (Some "permission denied"))
         "/tmp/.lock" [] 432 = Some err ->
       (main (sample_host (cfg "cat") (Some "permission denied"))).2 = StartupPanic /\
       Forall (fun e => is_listen e = false) post).
Proof.
  assert (Hne : faasProcess (Read (sample_host (cfg "cat")
                                     (Some "permission denied"))) <> "")
    by discriminate.
  split; [exact Hne|]. split; [reflexivity|].
  exact (proj2 (lock_file_before_listen
                  (sample_host (cfg "cat") (Some "permission denied")) Hne)
           eq_refl).
Defined.

Lemma server_parameters_witness :
  SListenAndServe {| Addr := ":8080"; ReadTimeout := 5000000000;
                     WriteTimeout := 5000000000; MaxHeaderBytes := 1048576 |}
    ∈ (main (sample_host (cfg "cat") None)).1 /\
  (-9223372036 <= readTimeout (Read (sample_host (cfg "cat") None))
     <= 9223372036)%Z /\
  (-9223372036 <= writeTimeout (Read (sample_host (cfg "cat") None))
     <= 9223372036)%Z /\
  ReadTimeout {| Addr := ":8080"; ReadTimeout := 5000000000;
                 WriteTimeout := 5000000000; MaxHeaderBytes := 1048576 |}
    = (readTimeout (Read (sample_host (cfg "cat") None)) * 1000000000)%Z.
Proof.
  assert (Hin : SListenAndServe {| Addr := ":8080"; ReadTimeout := 5000000000;
                                   WriteTimeout := 5000000000;
                                   MaxHeaderBytes := 1048576 |}
                  ∈ (main (sample_host (cfg "cat") None)).1)
    by (vm_compute; repeat constructor).
  assert (Hr : (-9223372036 <= readTimeout (Read (sample_host (cfg "cat") None))
                  <= 9223372036)%Z) by (simpl; lia).
  assert (Hw : (-9223372036 <= writeTimeout (Read (sample_host (cfg "cat") None))
                  <= 9223372036)%Z) by (simpl; lia).
  split; [exact Hin|]. split; [exact Hr|]. split; [exact Hw|].
  exact (proj1 (proj2 (server_parameters (sample_host (cfg "cat") None) _
                         Hin Hr Hw))).
Defined.
